(** * Wireshark MCP server: command construction and result wrapping

    A shallow embedding of [wireshark_mcp/wireshark_mcp_server.py]:
    the [WiresharkTools] static methods and the tool handlers built on
    them.  Every operation of the server delegates to the external
    [tshark] binary through [subprocess.run]; the embedding threads an
    explicit world (what the binary would answer, the invocations made
    so far, the clock) through a small state-and-exception monad. *)

From Stdlib Require Import ZArith List Bool Lia.
From Stdlib Require Import Strings.String Strings.Ascii.
From Stdlib Require Import Numbers.DecimalString Numbers.DecimalPos Numbers.DecimalZ.
Import ListNotations.
Open Scope string_scope.
Open Scope Z_scope.

(** ** The fragment of the Python runtime the server relies on *)

Module Py.

Definition LF : ascii := ascii_of_nat 10.
Definition SPACE : ascii := ascii_of_nat 32.
Definition DOT : ascii := ascii_of_nat 46.

(** [str(n)] and the [{n}] field of an f-string, for an [int]. *)
Definition str_of_int (z : Z) : string := NilZero.string_of_int (Z.to_int z).

(** Texts ([str]) are held as the bytes of their UTF-8 encoding.  The
    characters the server itself searches for (the blank, the period,
    the line feed) are ASCII, and an ASCII byte never occurs inside the
    encoding of another character. *)

(** [c.isspace()] on the ASCII range: TAB, LF, VT, FF, CR, the four
    separators FS, GS, RS, US, and the blank. *)
Definition isspace (c : ascii) : bool :=
  let n := nat_of_ascii c in
  ((9 <=? n) && (n <=? 13) || (28 <=? n) && (n <=? 32))%nat.

(** [s.lstrip(...)] and [s.rstrip(...)], parameterised by the set of
    characters to remove. *)
Fixpoint lstrip_by (p : ascii -> bool) (s : string) : string :=
  match s with
  | EmptyString => EmptyString
  | String c r => if p c then lstrip_by p r else s
  end.

Fixpoint rstrip_by (p : ascii -> bool) (s : string) : string :=
  match s with
  | EmptyString => EmptyString
  | String c r =>
      match rstrip_by p r with
      | EmptyString => if p c then EmptyString else String c EmptyString
      | r' => String c r'
      end
  end.

(** White space beyond ASCII.  A text is held as the bytes of its UTF-8
    encoding; these are the encodings of the other code points for which
    [isspace()] holds: U+0085 and U+00A0 (two bytes), and U+1680,
    U+2000 to U+200A, U+2028, U+2029, U+202F, U+205F and U+3000 (three
    bytes). *)
Definition byte_in (b : ascii) (l : list nat) : bool :=
  existsb (Nat.eqb (nat_of_ascii b)) l.

Definition space2 (b1 b2 : ascii) : bool :=
  byte_in b1 [194%nat] && byte_in b2 [133; 160]%nat.

Definition space3 (b1 b2 b3 : ascii) : bool :=
  byte_in b1 [225%nat] && byte_in b2 [154%nat] && byte_in b3 [128%nat]
  || byte_in b1 [226%nat] && byte_in b2 [128%nat]
     && byte_in b3 [128; 129; 130; 131; 132; 133; 134; 135; 136; 137; 138;
                    168; 169; 175]%nat
  || byte_in b1 [226%nat] && byte_in b2 [129%nat] && byte_in b3 [159%nat]
  || byte_in b1 [227%nat] && byte_in b2 [128%nat] && byte_in b3 [128%nat].

(** What is left of [s] after the white-space character it starts with,
    if it starts with one. *)
Definition space_head (s : string) : option string :=
  match s with
  | EmptyString => None
  | String b1 r1 =>
      if isspace b1 then Some r1 else
      match r1 with
      | EmptyString => None
      | String b2 r2 =>
          if space2 b1 b2 then Some r2 else
          match r2 with
          | EmptyString => None
          | String b3 r3 => if space3 b1 b2 b3 then Some r3 else None
          end
      end
  end.

(** [s.lstrip()]: leading white-space characters are removed. *)
Fixpoint lstrip_space (s : string) : string :=
  match s with
  | EmptyString => EmptyString
  | String b1 r1 =>
      if isspace b1 then lstrip_space r1 else
      match r1 with
      | EmptyString => s
      | String b2 r2 =>
          if space2 b1 b2 then lstrip_space r2 else
          match r2 with
          | EmptyString => s
          | String b3 r3 => if space3 b1 b2 b3 then lstrip_space r3 else s
          end
      end
  end.

(** [s] is made of white-space characters only (the empty text
    included). *)
Fixpoint blank (s : string) : bool :=
  match s with
  | EmptyString => true
  | String b1 r1 =>
      if isspace b1 then blank r1 else
      match r1 with
      | EmptyString => false
      | String b2 r2 =>
          if space2 b1 b2 then blank r2 else
          match r2 with
          | EmptyString => false
          | String b3 r3 => if space3 b1 b2 b3 then blank r3 else false
          end
      end
  end.

(** [s.rstrip()]: the text is cut at the first place after which only
    white space remains. *)
Fixpoint rstrip_space (s : string) : string :=
  match s with
  | EmptyString => EmptyString
  | String c r => if blank s then EmptyString else String c (rstrip_space r)
  end.

(** [s.strip()] *)
Definition strip (s : string) : string := rstrip_space (lstrip_space s).

(** [s.rstrip(chars)] for a one-character [chars]. *)
Definition rstrip_char (ch : ascii) (s : string) : string :=
  rstrip_by (Ascii.eqb ch) s.

(** [s.split(sep)] for a one-character separator: never the empty list. *)
Fixpoint split (sep : ascii) (s : string) : list string :=
  match s with
  | EmptyString => [EmptyString]
  | String c r =>
      if Ascii.eqb c sep then EmptyString :: split sep r
      else match split sep r with
           | h :: t => String c h :: t
           | [] => [String c EmptyString]
           end
  end.

(** [s.split(sep, 1)]: at most one cut, at the first occurrence. *)
Fixpoint split1 (sep : ascii) (s : string) : list string :=
  match s with
  | EmptyString => [EmptyString]
  | String c r =>
      if Ascii.eqb c sep then [EmptyString; r]
      else match split1 sep r with
           | h :: t => String c h :: t
           | [] => [String c EmptyString]
           end
  end.

(** [sep.join(parts)] *)
Fixpoint join (sep : string) (parts : list string) : string :=
  match parts with
  | [] => EmptyString
  | [p] => p
  | p :: rest => p ++ sep ++ join sep rest
  end.

(** [repr(s)] for a string of plain characters (no quote, no backslash,
    nothing to escape): the string between single quotes.  The server
    only renders the keys of its analysis table this way. *)
Definition repr_str (s : string) : string := "'" ++ s ++ "'".

(** [repr(l)] / [str(l)] for a list of such strings. *)
Definition repr_list (l : list string) : string :=
  "[" ++ join ", " (map repr_str l) ++ "]".

(** Truth value of an [Optional[str]] and of an [Optional[int]]. *)
Definition truthy_str (o : option string) : bool :=
  match o with
  | None => false
  | Some s => negb (String.eqb s EmptyString)
  end.

Definition truthy_int (o : option Z) : bool :=
  match o with
  | None => false
  | Some n => negb (n =? 0)
  end.

(** Values stored in the dictionaries the server returns. *)
Inductive value : Type :=
| VNone
| VBool (b : bool)
| VStr (s : string).

Definition of_opt_str (o : option string) : value :=
  match o with
  | None => VNone
  | Some s => VStr s
  end.

(** A dictionary display [{k1: v1, ...}]: insertion-ordered. *)
Definition dict : Type := list (string * value).

Fixpoint get (k : string) (d : dict) : option value :=
  match d with
  | [] => None
  | (k', v) :: r => if String.eqb k k' then Some v else get k r
  end.

Definition has_key (k : string) (d : dict) : bool :=
  match get k d with
  | Some _ => true
  | None => false
  end.

Definition keys {V : Type} (d : list (string * V)) : list string := map fst d.

(** Lookup in a table of strings: [k in d] and [d[k]]. *)
Fixpoint lookup (k : string) (d : list (string * string)) : option string :=
  match d with
  | [] => None
  | (k', v) :: r => if String.eqb k k' then Some v else lookup k r
  end.

(** Exception classes that reach this code, and where they sit in the
    class hierarchy.  [CalledProcessError] and [TimeoutExpired] derive
    from [SubprocessError]; [FileNotFoundError] and [PermissionError]
    derive from [OSError]; all derive from [Exception].  Interrupts
    ([KeyboardInterrupt], [SystemExit]), which are not [Exception]s and
    do not come from the arguments of a call, are outside the model. *)
Inductive exc_class : Type :=
| SubprocessError
| CalledProcessError
| TimeoutExpired
| OSError
| FileNotFoundError
| PermissionError
| ValueError
| TypeError
| KeyError.

Record exc : Type := mkExc { exc_cls : exc_class; exc_str : string }.

Definition is_SubprocessError (e : exc) : bool :=
  match exc_cls e with
  | SubprocessError | CalledProcessError | TimeoutExpired => true
  | _ => false
  end.

Definition is_FileNotFoundError (e : exc) : bool :=
  match exc_cls e with
  | FileNotFoundError => true
  | _ => false
  end.

Definition is_Exception (e : exc) : bool := true.

End Py.

(** ** The process boundary: [subprocess.run] *)

Module Subprocess.
Import Py.

(** What launching [argv] leads to: either the process runs to
    completion, or [Popen] raises before any process exists. *)
Inductive launch : Type :=
| Exited (returncode : Z) (stdout stderr : string)
| NotStarted (e : exc).

(** The world outside the server: the behaviour of the installed
    binaries, the argument vectors handed to [subprocess.run] so far
    (oldest first), and [int(time.time())]. *)
Record world : Type := mkWorld {
  binaries : list string -> launch;
  invoked : list (list string);
  now : Z
}.

(** A statement either completes with a value or raises. *)
Inductive outcome (A : Type) : Type :=
| Return (a : A)
| Raise (e : exc).
Arguments Return {A} a.
Arguments Raise {A} e.

Definition M (A : Type) : Type := world -> outcome A * world.

Definition ret {A : Type} (a : A) : M A := fun w => (Return a, w).

Definition raise {A : Type} (e : exc) : M A := fun w => (Raise e, w).

Definition bind {A B : Type} (m : M A) (k : A -> M B) : M B :=
  fun w =>
    match m w with
    | (Return a, w') => k a w'
    | (Raise e, w') => (Raise e, w')
    end.

(** [try: body  except <classes> as e: handler] *)
Definition try_except {A : Type} (body : M A) (classes : exc -> bool)
    (handler : exc -> M A) : M A :=
  fun w =>
    match body w with
    | (Raise e, w') => if classes e then handler e w' else (Raise e, w')
    | r => r
    end.

Definition time_time : M Z := fun w => (Return (now w), w).

(** [str(e)] of the [CalledProcessError] that [check=True] raises. *)
Definition called_process_error (argv : list string) (rc : Z) : exc :=
  mkExc CalledProcessError
    ("Command '" ++ repr_list argv ++ "' returned non-zero exit status "
       ++ str_of_int rc ++ ".").

Record CompletedProcess : Type := mkCompleted {
  returncode : Z;
  stdout : string;
  stderr : string
}.

(** [subprocess.run(argv, stdout=PIPE, stderr=PIPE, text=True, check=check)]:
    records the invocation, then reports how the launch went.  With
    [check=True] a non-zero exit status is turned into an exception. *)
Definition run (argv : list string) (check : bool) : M CompletedProcess :=
  fun w =>
    let w' := mkWorld (binaries w) (invoked w ++ [argv])%list (now w) in
    match binaries w argv with
    | NotStarted e => (Raise e, w')
    | Exited rc out err =>
        if check && negb (rc =? 0)
        then (Raise (called_process_error argv rc), w')
        else (Return (mkCompleted rc out err), w')
    end.

End Subprocess.

Declare Scope py_scope.
Notation "x <- m ;; k" := (Subprocess.bind m (fun x => k))
  (at level 61, m at next level, right associativity) : py_scope.
Open Scope py_scope.

(** ** [class WiresharkTools] *)

Module WiresharkTools.
Import Py Subprocess.

Definition check_wireshark_installed : M bool :=
  try_except
    (_ <- run ["tshark"; "--version"] true ;;
     ret true)
    (fun e => is_SubprocessError e || is_FileNotFoundError e)
    (fun _ => ret false).

(** One iteration of the parsing loop of [get_available_interfaces]:
    the records this line appends to [interfaces]. *)
Definition parse_line (line : string) : list dict :=
  if negb (String.eqb line EmptyString) then
    match split1 SPACE line with
    | p0 :: p1 :: _ =>
        [[("index", VStr (rstrip_char DOT p0)); ("interface", VStr p1)]]
    | _ => []
    end
  else [].

Definition parse_interfaces (out : string) : list dict :=
  flat_map parse_line (split LF (strip out)).

Definition get_available_interfaces : M (list dict) :=
  try_except
    (result <- run ["tshark"; "-D"] true ;;
     ret (parse_interfaces (stdout result)))
    is_SubprocessError
    (fun _ => ret []).

Definition failure (e : exc) : dict :=
  [("success", VBool false); ("error", VStr (exc_str e))].

(** [if v: cmd.extend([flag, v])] for an [Optional[str]] argument: what
    the statement appends to [cmd]. *)
Definition extend_if_str (flag : string) (v : option string) : list string :=
  match v with
  | Some s => if truthy_str v then [flag; s] else []
  | None => []
  end.

(** The same statement for an [Optional[int]] argument rendered with
    [str(v)]. *)
Definition extend_if_int (flag : string) (v : option Z) : list string :=
  match v with
  | Some n => if truthy_int v then [flag; str_of_int n] else []
  | None => []
  end.

Definition capture_cmd (interface : string) (duration : Z)
    (filter_str output_file : option string) : list string :=
  (["tshark"; "-i"; interface; "-a"; ("duration:" ++ str_of_int duration)%string]
     ++ extend_if_str "-f" filter_str
     ++ extend_if_str "-w" output_file)%list.

Definition capture_packets (interface : string) (duration : Z)
    (filter_str output_file : option string) : M dict :=
  try_except
    (result <- run (capture_cmd interface duration filter_str output_file) false ;;
     ret [("success", VBool (returncode result =? 0));
          ("stdout", VStr (stdout result));
          ("stderr", VStr (stderr result));
          ("output_file",
           if truthy_str output_file then of_opt_str output_file else VNone)])
    is_SubprocessError
    (fun e => ret (failure e)).

Definition read_cmd (file_path : string) (filter_str : option string)
    (limit : option Z) : list string :=
  (["tshark"; "-r"; file_path]
     ++ extend_if_str "-Y" filter_str
     ++ extend_if_int "-c" limit)%list.

Definition read_capture_file (file_path : string) (filter_str : option string)
    (limit : option Z) : M dict :=
  try_except
    (result <- run (read_cmd file_path filter_str limit) false ;;
     ret [("success", VBool (returncode result =? 0));
          ("stdout", VStr (stdout result));
          ("stderr", VStr (stderr result))])
    is_SubprocessError
    (fun e => ret (failure e)).

Definition supported_types : list (string * string) :=
  [("conversations", "conv,ip");
   ("endpoints", "endpoints,ip");
   ("protocols", "io,phs");
   ("http", "http,tree");
   ("dns", "dns,tree")].

Definition unsupported_message (analysis_type : string) : string :=
  "不支持的分析类型: " ++ analysis_type ++ ". 支持的类型: "
    ++ repr_list (keys supported_types).

Definition analyze_cmd (file_path selector : string) : list string :=
  ["tshark"; "-r"; file_path; "-q"; "-z"; selector].

Definition analyze_capture (file_path analysis_type : string) : M dict :=
  match lookup analysis_type supported_types with
  | None =>
      ret [("success", VBool false);
           ("error", VStr (unsupported_message analysis_type))]
  | Some selector =>
      try_except
        (result <- run (analyze_cmd file_path selector) false ;;
         ret [("success", VBool (returncode result =? 0));
              ("stdout", VStr (stdout result));
              ("stderr", VStr (stderr result))])
        is_SubprocessError
        (fun e => ret (failure e))
  end.

End WiresharkTools.

(** ** The registered tool handlers *)

(** The functions registered with [@app.tool()].  Their arguments arrive
    already typed ([str], [int], optional [str]); the calls to [logger],
    which only write to the log, are left out. *)

Module Tools.
Import Py Subprocess.

(** [d[k]]: raises [KeyError] when the key is missing. *)
Definition getitem (d : dict) (k : string) : M value :=
  match get k d with
  | Some v => ret v
  | None => raise (mkExc KeyError (repr_str k))
  end.

(** [f"capture_{int(time.time())}.pcap"] *)
Definition default_capture_name (t : Z) : string :=
  "capture_" ++ str_of_int t ++ ".pcap".

Definition wireshark_check_installation : M dict :=
  is_installed <- WiresharkTools.check_wireshark_installed ;;
  ret [("installed", VBool is_installed)].

Definition wireshark_capture_packets (interface : string) (duration : Z)
    (filter_str output_file : option string) : M dict :=
  try_except
    (output_file <-
       (if negb (truthy_str output_file)
        then (t <- time_time ;; ret (Some (default_capture_name t)))
        else ret output_file) ;;
     result <- WiresharkTools.capture_packets interface duration filter_str output_file ;;
     _ <- getitem result "success" ;;
     ret result)
    is_Exception
    (fun e => ret [("success", VBool false); ("error", VStr (exc_str e))]).

Definition wireshark_read_capture (file_path : string)
    (filter_str : option string) (limit : option Z) : M dict :=
  result <- WiresharkTools.read_capture_file file_path filter_str limit ;;
  ret result.

Definition wireshark_analyze (file_path analysis_type : string) : M dict :=
  result <- WiresharkTools.analyze_capture file_path analysis_type ;;
  ret result.

End Tools.

(** ** Nested results

    The flat dictionaries above carry [None], booleans and strings.  The
    remaining tools also return integers, clock readings, lists and
    dictionaries inside a dictionary. *)

Module Obj.
Import Py.

(** [OTime t] is a reading of [time.time()], a float, known here by its
    integer part [t] only. *)
#[warnings="-register-all"] Inductive obj : Type :=
| ONone
| OBool (b : bool)
| OInt (n : Z)
| OTime (t : Z)
| OStr (s : string)
| OList (l : list obj)
| ODict (d : list (string * obj)).

Definition odict : Type := list (string * obj).

(** [d.get(k)] on a dictionary display with values of any type. *)
Fixpoint assoc {V : Type} (k : string) (d : list (string * V)) : option V :=
  match d with
  | [] => None
  | (k', v) :: r => if String.eqb k k' then Some v else assoc k r
  end.

Definition of_value (v : value) : obj :=
  match v with
  | VNone => ONone
  | VBool b => OBool b
  | VStr s => OStr s
  end.

(** The same dictionary, seen as a nested value. *)
Definition of_dict (d : dict) : obj :=
  ODict (map (fun kv => (fst kv, of_value (snd kv))) d).

Definition of_strs (d : list (string * string)) : obj :=
  ODict (map (fun kv => (fst kv, OStr (snd kv))) d).

End Obj.

(** ** [class WiresharkPromptStore] *)

Module WiresharkPromptStore.
Import Py Obj.

Definition DQUOTE : string := String (ascii_of_nat 34) EmptyString.

(** Adjacent string literals, each ending in a line feed. *)
Definition text_lines (ls : list string) : string :=
  String.concat EmptyString (map (fun l => l ++ String LF EmptyString) ls).

Definition wireshark_filters_text : string :=
  text_lines
    ["常用Wireshark过滤器:";
     "- IP地址过滤: ip.addr == 192.168.1.1";
     "- 端口过滤: tcp.port == 80 或 udp.port == 53";
     "- 协议过滤: http 或 dns 或 tcp";
     "- HTTP请求过滤: http.request.method == " ++ DQUOTE ++ "GET" ++ DQUOTE;
     "- DNS过滤: dns.qry.name contains " ++ DQUOTE ++ "example.com" ++ DQUOTE;
     "- 数据包大小过滤: frame.len > 1000";
     "- 多条件组合: (ip.src == 192.168.1.1) && (tcp.port == 80)"].

Definition wireshark_analysis_text : string :=
  text_lines
    ["网络分析基本步骤:";
     "1. 应用适当的过滤器缩小分析范围";
     "2. 查找关键连接 (SYN, SYN-ACK等TCP握手)";
     "3. 分析响应时间和延迟情况";
     "4. 检查错误包和重传包";
     "5. 对特定协议深入分析其字段";
     "6. 导出重要会话为单独文件"].

Definition wireshark_commands_text : string :=
  text_lines
    ["有用的Wireshark命令行命令:";
     "- 捕获数据包: tshark -i <interface> -w <output.pcap>";
     "- 读取捕获文件: tshark -r <input.pcap>";
     "- 应用过滤器: tshark -r <input.pcap> -Y " ++ DQUOTE ++ "<display filter>" ++ DQUOTE;
     "- 提取特定字段: tshark -r <input.pcap> -T fields -e <field>";
     "- 统计信息: tshark -r <input.pcap> -q -z <statistics>"].

(** A prompt is a [Dict[str, str]]. *)
Definition prompt : Type := list (string * string).

(** [self._prompts], as [__init__] builds it. *)
Definition _prompts : list (string * prompt) :=
  [("wireshark_filters",
    [("id", "wireshark_filters"); ("text", wireshark_filters_text)]);
   ("wireshark_analysis",
    [("id", "wireshark_analysis"); ("text", wireshark_analysis_text)]);
   ("wireshark_commands",
    [("id", "wireshark_commands"); ("text", wireshark_commands_text)])].

Definition get (prompt_id : string) : option prompt := assoc prompt_id _prompts.

Definition list : Datatypes.list prompt := map snd _prompts.

End WiresharkPromptStore.

(** ** The remaining tools *)

Module Registry.
Import Py Subprocess Obj.

Definition wireshark_get_interfaces : M odict :=
  interfaces <- WiresharkTools.get_available_interfaces ;;
  ret [("interfaces", OList (map of_dict interfaces))].

Definition wireshark_get_prompts : odict :=
  [("prompts", OList (map of_strs WiresharkPromptStore.list))].

(** Truth value of an [Optional[Dict]]: [None] and the empty dictionary
    are false. *)
Definition truthy_prompt (p : option WiresharkPromptStore.prompt) : bool :=
  match p with
  | Some (_ :: _) => true
  | _ => false
  end.

Definition wireshark_get_prompt (prompt_id : string) : odict :=
  let prompt := WiresharkPromptStore.get prompt_id in
  match prompt with
  | Some p =>
      if truthy_prompt prompt
      then [("success", OBool true); ("prompt", of_strs p)]
      else [("success", OBool false);
            ("error", OStr ("未找到ID为'" ++ prompt_id ++ "'的提示"))]
  | None =>
      [("success", OBool false);
       ("error", OStr ("未找到ID为'" ++ prompt_id ++ "'的提示"))]
  end.

Definition wireshark_health_check : M odict :=
  try_except
    (is_installed <- WiresharkTools.check_wireshark_installed ;;
     interfaces <-
       (if is_installed then WiresharkTools.get_available_interfaces else ret []) ;;
     t <- time_time ;;
     ret [("status", OStr (if is_installed then "ok" else "error"));
          ("wireshark_installed", OBool is_installed);
          ("interface_count", OInt (Z.of_nat (List.length interfaces)));
          ("timestamp", OTime t)])
    is_Exception
    (fun e =>
       t <- time_time ;;
       ret [("status", OStr "error"); ("error", OStr (exc_str e));
            ("timestamp", OTime t)]).

End Registry.

(** ** Start-up: [server_lifespan], the [/health] endpoint and the script body *)

Module Server.
Import Py Subprocess Obj.

(** How entering [server_lifespan] ends: the context manager yields its
    (empty) context, or the body raises [Exception(message)], or an
    exception of the probe passes through. *)
Inductive entered : Type :=
| Yields (context : odict)
| Aborts (message : string)
| Escapes (e : exc).

Definition server_lifespan : world -> entered * world :=
  fun w =>
    match WiresharkTools.check_wireshark_installed w with
    | (Return true, w') => (Yields [], w')
    | (Return false, w') => (Aborts "Wireshark未安装或tshark命令不可用", w')
    | (Raise e, w') => (Escapes e, w')
    end.

(** The [health] endpoint of [create_sse_server]: the body of its JSON
    response. *)
Definition health : M odict :=
  is_installed <- WiresharkTools.check_wireshark_installed ;;
  t <- time_time ;;
  ret [("status", OStr (if is_installed then "healthy" else "unhealthy"));
       ("wireshark_installed", OBool is_installed);
       ("server_time", OTime t)].

(** [os.environ], as far as the script reads it. *)
Record environ : Type := mkEnviron {
  MCP_PORT : option string;
  MCP_HOST : option string
}.

(** How the script body ends: [uvicorn.run(sse_app, host, port)] is
    reached (the module [uvicorn] being importable; what the server does
    from there on is not followed), or [sys.exit(code)] ends the
    process.  [sys.exit] is called in two places: in the [else] branch of
    the installation test ([SystemExit] is not an [Exception], so the
    handler of the script lets it through), and at the end of the
    handler itself, after the caught exception has been logged. *)
Inductive ending : Type :=
| Serves (host : string) (port : Z)
| SysExit (code : Z).

(** The loop that logs one line per interface:
    [interface['index']] and [interface['interface']] are looked up. *)
Fixpoint log_interfaces (interfaces : Datatypes.list dict) : M unit :=
  match interfaces with
  | [] => ret tt
  | interface :: rest =>
      _ <- Tools.getitem interface "index" ;;
      _ <- Tools.getitem interface "interface" ;;
      log_interfaces rest
  end.

Section Main.

(** [int(s)] on a string is the interpreter's: it gives an integer or
    raises [ValueError]. *)
Variable int_of_str : string -> outcome Z.

Definition main (env : environ) : world -> ending * world :=
  fun w =>
    let body : M ending :=
      port <-
        (match MCP_PORT env with
         | Some s => (fun w0 => (int_of_str s, w0))
         | None => ret 3001
         end) ;;
      let host :=
        match MCP_HOST env with
        | Some h => h
        | None => "127.0.0.1"
        end in
      is_installed <- WiresharkTools.check_wireshark_installed ;;
      if is_installed then
        interfaces <- WiresharkTools.get_available_interfaces ;;
        _ <- log_interfaces interfaces ;;
        ret (Serves host port)
      else ret (SysExit 1) in
    match body w with
    | (Return r, w') => (r, w')
    | (Raise e, w') => (SysExit 1, w')
    end.

End Main.

End Server.

(** * Vocabulary of the statements *)

Import Py Subprocess.

(** ** Scenarios the statements are exercised on *)

Module Scenario.

Definition no_such_file : exc :=
  mkExc FileNotFoundError "[Errno 2] No such file or directory: 'tshark'".

Definition permission_denied : exc :=
  mkExc PermissionError "[Errno 13] Permission denied: 'tshark'".

(** No [tshark] on the PATH. *)
Definition missing : world := mkWorld (fun _ => NotStarted no_such_file) [] 1700000000.

(** A [tshark] that starts, prints [out] and exits with status [rc]. *)
Definition answering (rc : Z) (out err : string) : world :=
  mkWorld (fun _ => Exited rc out err) [] 1700000000.

Definition two_interfaces : string :=
  "1. en0 (Wi-Fi)" ++ String LF "2. lo0 (Loopback)" ++ String LF EmptyString.

End Scenario.

(** ** Worlds *)

(** The world after one more call of [subprocess.run], on [argv]. *)
Definition logged (w : world) (argv : list string) : world :=
  mkWorld (binaries w) (invoked w ++ [argv])%list (now w).

(** ** The two probes *)

(** The argument vectors of the installation probe and of the interface
    listing. *)
Definition version_probe : list string := ["tshark"; "--version"].

(** The probe as the specification words it: true exactly when the
    process starts, the exit status playing no part. *)
Definition spec_check_installed (w : world) : bool :=
  match binaries w version_probe with
  | Exited _ _ _ => true
  | NotStarted _ => false
  end.

Definition list_probe : list string := ["tshark"; "-D"].

(** ** Lines and characters *)

(** [ch in s] for a character. *)
Fixpoint contains (c : ascii) (s : string) : bool :=
  match s with
  | EmptyString => false
  | String c' r => Ascii.eqb c' c || contains c r
  end.

(** [k] periods in a row. *)
Fixpoint dots (k : nat) : string :=
  match k with
  | O => EmptyString
  | S k' => String DOT (dots k')
  end.

(** [s[-1]], when [s] is not empty. *)
Definition last_char (s : string) : option ascii :=
  match String.length s with
  | O => None
  | S n => String.get n s
  end.




(** ** Argument vectors and results *)

(** The names the specification lists for the analysis table. *)
Definition analysis_names : list string :=
  ["conversations"; "endpoints"; "protocols"; "http"; "dns"].

(** Occurrence of [needle] somewhere inside [s]. *)
Fixpoint occurs (needle s : string) : bool :=
  String.prefix needle s ||
  match s with
  | EmptyString => false
  | String _ r => occurs needle r
  end.

(** The base capture invocation with its duration bound. *)
Definition capture_base (interface : string) (duration : Z) : list string :=
  ["tshark"; "-i"; interface; "-a"; ("duration:" ++ str_of_int duration)%string].

(** The output path the handler passes on: the caller's when it is a
    non-empty string, the synthesized one otherwise. *)
Definition effective_output (output_file : option string) (w : world) : option string :=
  if truthy_str output_file then output_file
  else Some (Tools.default_capture_name (now w)).

(** An optional string argument that does not count as given: [None] or
    the empty string, the two values Python treats as false. *)
Definition absent (v : option string) : Prop := v = None \/ v = Some EmptyString.

(** The mapping a completed process is wrapped into, without the
    [output_file] entry that only the capture adds. *)
Definition process_outcome (rc : Z) (out err : string) : dict :=
  [("success", VBool (rc =? 0)); ("stdout", VStr out); ("stderr", VStr err)].

(** The two shapes of a result.  A success-shaped mapping carries the
    process outcome ([stdout] and [stderr]) and no [error]; a
    failure-shaped mapping carries an [error] message and none of the
    outcome fields. *)
Definition success_shaped (d : dict) : bool :=
  has_key "stdout" d && has_key "stderr" d && negb (has_key "error" d).

Definition failure_shaped (d : dict) : bool :=
  match get "error" d with
  | Some (VStr _) =>
      negb (has_key "stdout" d) && negb (has_key "stderr" d)
        && negb (has_key "output_file" d)
  | _ => false
  end.

Definition one_shape (d : dict) : Prop :=
  (success_shaped d = true /\ failure_shaped d = false)
  \/ (success_shaped d = false /\ failure_shaped d = true).

(** The mappings that some call of a capture, read or analyze operation,
    or of the tool wrapping it, returns in some world. *)
Inductive returned : dict -> Prop :=
| returned_capture_packets interface duration filter_str output_file w d :
    fst (WiresharkTools.capture_packets interface duration filter_str output_file w) =
      Return d -> returned d
| returned_read_capture_file file_path filter_str limit w d :
    fst (WiresharkTools.read_capture_file file_path filter_str limit w) = Return d ->
    returned d
| returned_analyze_capture file_path analysis_type w d :
    fst (WiresharkTools.analyze_capture file_path analysis_type w) = Return d ->
    returned d
| returned_wireshark_capture_packets interface duration filter_str output_file w d :
    fst (Tools.wireshark_capture_packets interface duration filter_str output_file w) =
      Return d -> returned d
| returned_wireshark_read_capture file_path filter_str limit w d :
    fst (Tools.wireshark_read_capture file_path filter_str limit w) = Return d ->
    returned d
| returned_wireshark_analyze file_path analysis_type w d :
    fst (Tools.wireshark_analyze file_path analysis_type w) = Return d ->
    returned d.

(** ** Vocabulary of the further properties *)

(** Bytes a white-space character can start with. *)
Definition start_byte (c : ascii) : bool :=
  isspace c || byte_in c [194; 225; 226; 227]%nat.

(** The identifiers under which the prompt store holds a prompt. *)
Definition prompt_ids : list string :=
  ["wireshark_filters"; "wireshark_analysis"; "wireshark_commands"].

(** The message of [wireshark_get_prompt] for an unknown identifier. *)
Definition prompt_not_found (prompt_id : string) : string :=
  "未找到ID为'" ++ prompt_id ++ "'的提示".

(** The host and the port the script serves on. *)
Definition listen_host (env : Server.environ) : string :=
  match Server.MCP_HOST env with
  | Some h => h
  | None => "127.0.0.1"
  end.

(** [int(os.environ.get("MCP_PORT", 3001))]: the default, or what the
    interpreter's [int] makes of the variable. *)
Definition port_setting (int_of_str : string -> outcome Z) (env : Server.environ) :
    outcome Z :=
  match Server.MCP_PORT env with
  | Some s => int_of_str s
  | None => Return 3001
  end.

(** The world after two more calls of [subprocess.run]. *)
Definition logged2 (w : world) (argv1 argv2 : list string) : world :=
  logged (logged w argv1) argv2.

(** The report of a health check in which both probes returned. *)
Definition health_report (is_installed : bool) (count : nat) (t : Z) : Obj.odict :=
  [("status", Obj.OStr (if is_installed then "ok" else "error"));
   ("wireshark_installed", Obj.OBool is_installed);
   ("interface_count", Obj.OInt (Z.of_nat count));
   ("timestamp", Obj.OTime t)].

(** The report of a health check in which a probe raised. *)
Definition health_error (e : exc) (t : Z) : Obj.odict :=
  [("status", Obj.OStr "error"); ("error", Obj.OStr (exc_str e)); ("timestamp", Obj.OTime t)].

(** * Properties *)

(** ** Generic facts about the monad and [subprocess.run] *)

Section RunFacts.

Variable w : world.
Variable argv : list string.

Lemma run_exited (check : bool) (rc : Z) (out err : string) :
  binaries w argv = Exited rc out err ->
  run argv check w =
    (if check && negb (rc =? 0)
     then Raise (called_process_error argv rc)
     else Return (mkCompleted rc out err), logged w argv).
Proof.
  intros H. unfold run, logged. rewrite H.
  destruct (check && negb (rc =? 0)); reflexivity.
Qed.

Lemma run_not_started (check : bool) (e : exc) :
  binaries w argv = NotStarted e -> run argv check w = (Raise e, logged w argv).
Proof.
  intros H. unfold run, logged. now rewrite H.
Qed.

Lemma run_records (check : bool) :
  invoked (snd (run argv check w)) = (invoked w ++ [argv])%list.
Proof.
  unfold run. destruct (binaries w argv) as [rc out err | e]; [|reflexivity].
  destruct (check && negb (rc =? 0)); reflexivity.
Qed.

End RunFacts.

Lemma called_process_error_is_SubprocessError (argv : list string) (rc : Z) :
  is_SubprocessError (called_process_error argv rc) = true.
Proof. reflexivity. Qed.

(** Case analysis on how the launch of [argv] goes in [w]. *)
Ltac launch_cases w argv :=
  let rc := fresh "rc" in
  let out := fresh "out" in
  let err := fresh "err" in
  let e := fresh "e" in
  let Hl := fresh "Hlaunch" in
  destruct (binaries w argv) as [rc out err | e] eqn:Hl.

(** ** The installation probe *)

Lemma check_wireshark_installed_eval (w : world) :
  WiresharkTools.check_wireshark_installed w =
    (match binaries w version_probe with
     | Exited rc _ _ => Return (rc =? 0)
     | NotStarted e =>
         if is_SubprocessError e || is_FileNotFoundError e
         then Return false else Raise e
     end, logged w version_probe).
Proof.
  unfold WiresharkTools.check_wireshark_installed, try_except, bind.
  fold version_probe.
  launch_cases w version_probe.
  - rewrite (run_exited _ _ true rc out err Hlaunch). simpl.
    destruct (rc =? 0); reflexivity.
  - rewrite (run_not_started _ _ true e Hlaunch).
    destruct (is_SubprocessError e || is_FileNotFoundError e); reflexivity.
Qed.

(** C1, counterexample: a [tshark] that starts and exits with status 1
    makes the probe answer [False], although the process did start.  The
    stated "true iff the process starts, exit code not inspected" fails. *)
Lemma check_wireshark_installed_inspects_exit_code :
  ~ (forall w : world,
       fst (WiresharkTools.check_wireshark_installed w) =
         Return (spec_check_installed w)).
Proof.
  intros H.
  specialize (H (Scenario.answering 1 EmptyString "tshark: failure")).
  vm_compute in H. discriminate H.
Qed.

(** C1, as amended: the probe runs [tshark --version] once; it answers
    [True] exactly when the process starts and exits with status 0, and
    answers [False] without raising when the process exits with a non-zero
    status or when the binary is absent ([FileNotFoundError]). *)
Theorem check_wireshark_installed_exit_zero (w : world) :
  (fst (WiresharkTools.check_wireshark_installed w) = Return true <->
     exists out err, binaries w version_probe = Exited 0 out err)
  /\ (forall rc out err,
        binaries w version_probe = Exited rc out err -> rc <> 0 ->
        fst (WiresharkTools.check_wireshark_installed w) = Return false)
  /\ (forall e,
        binaries w version_probe = NotStarted e ->
        is_FileNotFoundError e = true ->
        fst (WiresharkTools.check_wireshark_installed w) = Return false)
  /\ invoked (snd (WiresharkTools.check_wireshark_installed w)) =
       (invoked w ++ [version_probe])%list.
Proof.
  rewrite check_wireshark_installed_eval. simpl.
  repeat split.
  - launch_cases w version_probe.
    + intros H. injection H as H. apply Z.eqb_eq in H. subst rc. eauto.
    + destruct (is_SubprocessError e || is_FileNotFoundError e); discriminate.
  - intros (out & err & H). rewrite H. reflexivity.
  - intros rc out err H Hrc. rewrite H.
    apply Z.eqb_neq in Hrc. now rewrite Hrc.
  - intros e H He. rewrite H, He, orb_true_r. reflexivity.
Qed.

(** A failing [tshark] and a missing one both give [False]. *)
Lemma check_wireshark_installed_exit_zero_witness :
  fst (WiresharkTools.check_wireshark_installed
         (Scenario.answering 2 EmptyString EmptyString)) = Return false
  /\ fst (WiresharkTools.check_wireshark_installed Scenario.missing) = Return false.
Proof.
  split.
  - apply (proj1 (proj2 (check_wireshark_installed_exit_zero
                           (Scenario.answering 2 EmptyString EmptyString)))
             2 EmptyString EmptyString); [reflexivity | lia].
  - apply (proj1 (proj2 (proj2 (check_wireshark_installed_exit_zero Scenario.missing)))
             Scenario.no_such_file); reflexivity.
Defined.

(** What the handler of the probe does not name escapes it: a [tshark]
    that is present but may not be executed raises [PermissionError]. *)
Lemma check_wireshark_installed_permission_denied :
  fst (WiresharkTools.check_wireshark_installed
         (mkWorld (fun _ => NotStarted Scenario.permission_denied) [] 0)) =
    Raise Scenario.permission_denied.
Proof. reflexivity. Qed.

(** ** Interface enumeration *)

Lemma get_available_interfaces_eval (w : world) :
  WiresharkTools.get_available_interfaces w =
    (match binaries w list_probe with
     | Exited rc out _ =>
         if rc =? 0 then Return (WiresharkTools.parse_interfaces out) else Return []
     | NotStarted e => if is_SubprocessError e then Return [] else Raise e
     end, logged w list_probe).
Proof.
  unfold WiresharkTools.get_available_interfaces, try_except, bind.
  fold list_probe.
  launch_cases w list_probe.
  - rewrite (run_exited _ _ true rc out err Hlaunch). simpl.
    destruct (rc =? 0); reflexivity.
  - rewrite (run_not_started _ _ true e Hlaunch).
    destruct (is_SubprocessError e); reflexivity.
Qed.

(** Failures the handler of [get_available_interfaces] does absorb: a
    non-zero exit status (through [check=True]) and any exception of the
    [SubprocessError] family give the empty list. *)
Lemma get_available_interfaces_subprocess_error (w : world) :
  (forall rc out err,
     binaries w list_probe = Exited rc out err -> rc <> 0 ->
     fst (WiresharkTools.get_available_interfaces w) = Return [])
  /\ (forall e,
        binaries w list_probe = NotStarted e -> is_SubprocessError e = true ->
        fst (WiresharkTools.get_available_interfaces w) = Return []).
Proof.
  rewrite get_available_interfaces_eval. simpl. split.
  - intros rc out err H Hrc. rewrite H.
    apply Z.eqb_neq in Hrc. now rewrite Hrc.
  - intros e H He. now rewrite H, He.
Qed.

(** C2, the code at the failing input: with no [tshark] on the PATH,
    [subprocess.run] raises [FileNotFoundError]; the sibling probe
    [check_wireshark_installed] turns it into [False], but
    [get_available_interfaces] only handles [SubprocessError] and lets
    the exception escape instead of returning the empty list. *)
Lemma get_available_interfaces_missing_binary_raises :
  fst (WiresharkTools.check_wireshark_installed Scenario.missing) = Return false
  /\ fst (WiresharkTools.get_available_interfaces Scenario.missing) =
       Raise Scenario.no_such_file.
Proof. split; reflexivity. Qed.

(** ** Parsing the interface list *)




(** [rstrip] removes a run of [k] trailing periods and leaves a string
    that does not end with one. *)
Lemma rstrip_by_decompose (p : ascii -> bool) (s : string) :
  exists t, s = rstrip_by p s ++ t
            /\ (forall c, contains c t = true -> p c = true)
            /\ (forall c, last_char (rstrip_by p s) = Some c -> p c = false).
Proof.
  induction s as [|c r (t & Heq & Ht & Hl)].
  - exists EmptyString. repeat split; simpl; intros; discriminate.
  - simpl. destruct (rstrip_by p r) as [|c' r'] eqn:Hr.
    + destruct (p c) eqn:Hc.
      * exists (String c t). simpl in Heq. subst r. repeat split.
        -- intros c0 H0. simpl in H0. apply orb_true_iff in H0 as [H0|H0].
           ++ apply Ascii.eqb_eq in H0. now subst c0.
           ++ now apply Ht.
        -- intros c0 H0. discriminate H0.
      * exists t. simpl in Heq. subst r. repeat split; auto.
        intros c0 H0. unfold last_char in H0. simpl in H0.
        injection H0 as <-. exact Hc.
    + exists t. split; [simpl; f_equal; exact Heq | split; [exact Ht | exact Hl]].
Qed.

Lemma all_dots (t : string) :
  (forall c, contains c t = true -> Ascii.eqb DOT c = true) ->
  t = dots (String.length t).
Proof.
  induction t as [|c r IH]; simpl; intros H; [reflexivity|].
  assert (Hc : c = DOT).
  { symmetry. apply Ascii.eqb_eq, H. now rewrite Ascii.eqb_refl. }
  subst c. f_equal. apply IH. intros c Hc. apply H. rewrite Hc. apply orb_true_r.
Qed.

Lemma rstrip_char_dots (a : string) :
  exists k, a = rstrip_char DOT a ++ dots k
            /\ last_char (rstrip_char DOT a) <> Some DOT.
Proof.
  unfold rstrip_char.
  destruct (rstrip_by_decompose (Ascii.eqb DOT) a) as (t & Heq & Ht & Hl).
  exists (String.length t). split.
  - rewrite <- (all_dots t Ht). exact Heq.
  - intros H. apply Hl in H. now rewrite Ascii.eqb_refl in H.
Qed.










(** ** The analysis-type table *)

Lemma keys_supported_types :
  keys WiresharkTools.supported_types = analysis_names.
Proof. reflexivity. Qed.

Lemma lookup_none (k : string) (d : list (string * string)) :
  ~ In k (keys d) -> lookup k d = None.
Proof.
  induction d as [|[k' v] r IH]; simpl; [reflexivity|].
  intros H. destruct (String.eqb k k') eqn:E.
  - apply String.eqb_eq in E. subst k'. exfalso. apply H. now left.
  - apply IH. intros Hin. apply H. now right.
Qed.

Lemma lookup_some_in (k v : string) (d : list (string * string)) :
  lookup k d = Some v -> In (k, v) d.
Proof.
  induction d as [|[k' v'] r IH]; simpl; [discriminate|].
  destruct (String.eqb k k') eqn:E.
  - intros H. injection H as <-. apply String.eqb_eq in E. subst k'. now left.
  - intros H. right. now apply IH.
Qed.

Lemma lookup_in_keys (k : string) (d : list (string * string)) :
  In k (keys d) -> exists v, lookup k d = Some v.
Proof.
  induction d as [|[k' v'] r IH]; simpl; [intros []|].
  intros H. destruct (String.eqb k k') eqn:E; [eauto|].
  destruct H as [H|H]; [|now apply IH].
  subst k'. now rewrite String.eqb_refl in E.
Qed.

(** In a dictionary without repeated keys, an entry is what [d[k]] finds. *)
Lemma in_lookup (k v : string) (d : list (string * string)) :
  NoDup (keys d) -> In (k, v) d -> lookup k d = Some v.
Proof.
  induction d as [|[k' v'] r IH]; simpl; [intros _ []|].
  intros Hnd Hin. inversion Hnd as [|? ? Hnotin Hnd']; subst.
  destruct Hin as [Heq|Hin].
  - injection Heq as -> ->. now rewrite String.eqb_refl.
  - destruct (String.eqb k k') eqn:E; [|now apply IH].
    apply String.eqb_eq in E. subst k'. exfalso. apply Hnotin.
    change (In (fst (k, v)) (map fst r)). now apply in_map.
Qed.

Lemma supported_types_nodup : NoDup (keys WiresharkTools.supported_types).
Proof.
  rewrite keys_supported_types. unfold analysis_names.
  repeat constructor; simpl; intuition discriminate.
Qed.

Lemma occurs_append (needle a b : string) :
  occurs needle b = true -> occurs needle (a ++ b) = true.
Proof.
  intros H. induction a as [|c r IH]; simpl; [exact H|].
  rewrite IH. apply orb_true_r.
Qed.

(** ** Statistics reports *)

Lemma analyze_capture_valid (file_path analysis_type selector : string) (w : world) :
  lookup analysis_type WiresharkTools.supported_types = Some selector ->
  WiresharkTools.analyze_capture file_path analysis_type w =
    (match binaries w (WiresharkTools.analyze_cmd file_path selector) with
     | Exited rc out err =>
         Return [("success", VBool (rc =? 0)); ("stdout", VStr out);
                 ("stderr", VStr err)]
     | NotStarted e =>
         if is_SubprocessError e then Return (WiresharkTools.failure e) else Raise e
     end, logged w (WiresharkTools.analyze_cmd file_path selector)).
Proof.
  intros Hsel. unfold WiresharkTools.analyze_capture. rewrite Hsel.
  unfold try_except, bind.
  launch_cases w (WiresharkTools.analyze_cmd file_path selector).
  - rewrite (run_exited _ _ false rc out err Hlaunch). reflexivity.
  - rewrite (run_not_started _ _ false e Hlaunch).
    destruct (is_SubprocessError e); reflexivity.
Qed.

Lemma wireshark_analyze_eq (file_path analysis_type : string) (w : world) :
  Tools.wireshark_analyze file_path analysis_type w =
    WiresharkTools.analyze_capture file_path analysis_type w.
Proof.
  unfold Tools.wireshark_analyze, bind, ret.
  destruct (WiresharkTools.analyze_capture file_path analysis_type w) as [[d|e] w'];
    reflexivity.
Qed.

(** C4: for an analysis type outside the table, [analyze_capture] (and
    the [wireshark_analyze] tool built on it) returns the failure mapping
    whose message lists the five valid names, and leaves the world as it
    was: [subprocess.run] is not called. *)
Theorem analyze_capture_unknown_type (file_path analysis_type : string)
    (w : world) (Hunknown : ~ In analysis_type analysis_names) :
  WiresharkTools.analyze_capture file_path analysis_type w =
    (Return [("success", VBool false);
             ("error", VStr (WiresharkTools.unsupported_message analysis_type))], w)
  /\ Tools.wireshark_analyze file_path analysis_type w =
       WiresharkTools.analyze_capture file_path analysis_type w
  /\ invoked (snd (WiresharkTools.analyze_capture file_path analysis_type w)) =
       invoked w
  /\ WiresharkTools.unsupported_message analysis_type =
       "不支持的分析类型: " ++ analysis_type ++ ". 支持的类型: "
         ++ "['conversations', 'endpoints', 'protocols', 'http', 'dns']"
  /\ (forall name, In name analysis_names ->
        occurs (repr_str name)
          (WiresharkTools.unsupported_message analysis_type) = true).
Proof.
  assert (Hnone : lookup analysis_type WiresharkTools.supported_types = None).
  { apply lookup_none. now rewrite keys_supported_types. }
  assert (Heval : WiresharkTools.analyze_capture file_path analysis_type w =
                    (Return [("success", VBool false);
                             ("error",
                              VStr (WiresharkTools.unsupported_message analysis_type))],
                     w)).
  { unfold WiresharkTools.analyze_capture. now rewrite Hnone. }
  split; [exact Heval|].
  split; [apply wireshark_analyze_eq|].
  split; [now rewrite Heval|].
  split; [reflexivity|].
  intros name Hname. unfold WiresharkTools.unsupported_message.
  apply occurs_append, occurs_append, occurs_append.
  simpl in Hname.
  destruct Hname as [<-|[<-|[<-|[<-|[<-|[]]]]]]; vm_compute; reflexivity.
Qed.

Lemma analyze_capture_unknown_type_witness :
  ~ In "tcp" analysis_names
  /\ WiresharkTools.analyze_capture "trace.pcap" "tcp" Scenario.missing =
       (Return [("success", VBool false);
                ("error",
                 VStr ("不支持的分析类型: tcp. 支持的类型: "
                         ++ "['conversations', 'endpoints', 'protocols', 'http', 'dns']"))],
        Scenario.missing).
Proof.
  assert (H : ~ In "tcp" analysis_names).
  { simpl. intuition discriminate. }
  split; [exact H|].
  exact (proj1 (analyze_capture_unknown_type "trace.pcap" "tcp" Scenario.missing H)).
Defined.

(** C5: the table binds every name to one selector (no key is repeated,
    so two entries for the same name agree), and for a valid name
    [analyze_capture] makes exactly one invocation, the statistics report
    [tshark -r <file> -q -z <selector>] with the selector bound to that
    name. *)
Theorem analyze_capture_uses_selector (file_path analysis_type : string)
    (w : world) (Hvalid : In analysis_type analysis_names) :
  NoDup (keys WiresharkTools.supported_types)
  /\ (forall name s1 s2,
        In (name, s1) WiresharkTools.supported_types ->
        In (name, s2) WiresharkTools.supported_types -> s1 = s2)
  /\ exists selector,
       In (analysis_type, selector) WiresharkTools.supported_types
       /\ invoked (snd (WiresharkTools.analyze_capture file_path analysis_type w)) =
            (invoked w ++ [["tshark"; "-r"; file_path; "-q"; "-z"; selector]])%list.
Proof.
  split; [exact supported_types_nodup|].
  split.
  - intros name s1 s2 H1 H2.
    apply (in_lookup _ _ _ supported_types_nodup) in H1, H2. congruence.
  - rewrite <- keys_supported_types in Hvalid.
    destruct (lookup_in_keys _ _ Hvalid) as [selector Hsel].
    exists selector. split; [now apply lookup_some_in|].
    now rewrite (analyze_capture_valid _ _ _ _ Hsel).
Qed.

Lemma analyze_capture_uses_selector_witness :
  In "protocols" analysis_names
  /\ exists selector,
       In ("protocols", selector) WiresharkTools.supported_types
       /\ invoked (snd (WiresharkTools.analyze_capture "trace.pcap" "protocols"
                          (Scenario.answering 0 EmptyString EmptyString))) =
            [["tshark"; "-r"; "trace.pcap"; "-q"; "-z"; selector]].
Proof.
  assert (H : In "protocols" analysis_names) by (simpl; auto).
  split; [exact H|].
  exact (proj2 (proj2 (analyze_capture_uses_selector "trace.pcap" "protocols"
                         (Scenario.answering 0 EmptyString EmptyString) H))).
Defined.

(** The five bindings, one by one. *)
Lemma supported_types_bindings :
  lookup "conversations" WiresharkTools.supported_types = Some "conv,ip"
  /\ lookup "endpoints" WiresharkTools.supported_types = Some "endpoints,ip"
  /\ lookup "protocols" WiresharkTools.supported_types = Some "io,phs"
  /\ lookup "http" WiresharkTools.supported_types = Some "http,tree"
  /\ lookup "dns" WiresharkTools.supported_types = Some "dns,tree".
Proof. repeat split. Qed.

(** ** Capture *)

Lemma capture_packets_eval (interface : string) (duration : Z)
    (filter_str output_file : option string) (w : world) :
  let cmd := WiresharkTools.capture_cmd interface duration filter_str output_file in
  WiresharkTools.capture_packets interface duration filter_str output_file w =
    (match binaries w cmd with
     | Exited rc out err =>
         Return [("success", VBool (rc =? 0)); ("stdout", VStr out);
                 ("stderr", VStr err);
                 ("output_file",
                  if truthy_str output_file then of_opt_str output_file else VNone)]
     | NotStarted e =>
         if is_SubprocessError e then Return (WiresharkTools.failure e) else Raise e
     end, logged w cmd).
Proof.
  intros cmd. unfold WiresharkTools.capture_packets, try_except, bind.
  fold cmd. launch_cases w cmd.
  - rewrite (run_exited _ _ false rc out err Hlaunch). reflexivity.
  - rewrite (run_not_started _ _ false e Hlaunch).
    destruct (is_SubprocessError e); reflexivity.
Qed.

Lemma default_capture_name_nonempty (t : Z) :
  Tools.default_capture_name t <> EmptyString.
Proof. unfold Tools.default_capture_name. simpl. discriminate. Qed.

Lemma effective_output_truthy (output_file : option string) (w : world) :
  truthy_str (effective_output output_file w) = true.
Proof.
  unfold effective_output. destruct (truthy_str output_file) eqn:E; [exact E|].
  reflexivity.
Qed.

Lemma wireshark_capture_packets_eval (interface : string) (duration : Z)
    (filter_str output_file : option string) (w : world) :
  let out_path := effective_output output_file w in
  let cmd := WiresharkTools.capture_cmd interface duration filter_str out_path in
  Tools.wireshark_capture_packets interface duration filter_str output_file w =
    (match binaries w cmd with
     | Exited rc out err =>
         Return [("success", VBool (rc =? 0)); ("stdout", VStr out);
                 ("stderr", VStr err); ("output_file", of_opt_str out_path)]
     | NotStarted e =>
         Return [("success", VBool false); ("error", VStr (exc_str e))]
     end, logged w cmd).
Proof.
  intros out_path cmd.
  assert (Hcap := capture_packets_eval interface duration filter_str out_path w).
  cbv zeta in Hcap. fold cmd in Hcap.
  assert (Ht : truthy_str out_path = true) by apply effective_output_truthy.
  rewrite Ht in Hcap.
  unfold Tools.wireshark_capture_packets, try_except, bind, time_time, ret.
  assert (Hdef : (if truthy_str output_file then output_file
                  else Some (Tools.default_capture_name (now w))) = out_path)
    by reflexivity.
  destruct (truthy_str output_file); cbv beta iota delta [negb];
    rewrite Hdef, Hcap;
    (launch_cases w cmd; [reflexivity | destruct (is_SubprocessError e); reflexivity]).
Qed.

Lemma absent_not_truthy (v : option string) : absent v -> truthy_str v = false.
Proof. intros [-> | ->]; reflexivity. Qed.

Lemma nonempty_truthy (s : string) : s <> EmptyString -> truthy_str (Some s) = true.
Proof.
  intros H. unfold truthy_str. destruct (String.eqb s EmptyString) eqn:E; [|reflexivity].
  apply String.eqb_eq in E. contradiction.
Qed.

Lemma extend_if_str_absent (flag : string) (v : option string) :
  absent v -> WiresharkTools.extend_if_str flag v = [].
Proof. intros [-> | ->]; reflexivity. Qed.

Lemma extend_if_str_given (flag s : string) :
  s <> EmptyString -> WiresharkTools.extend_if_str flag (Some s) = [flag; s].
Proof.
  intros H. unfold WiresharkTools.extend_if_str. now rewrite nonempty_truthy.
Qed.

(** C6, counterexample: with no [tshark] to launch, a capture requested
    without an output path returns the failure mapping, which has no
    [output_file] entry at all. *)
Lemma capture_failure_has_no_output_file :
  ~ (forall (w : world) (interface : string) (duration : Z)
            (filter_str : option string),
       exists d name,
         fst (Tools.wireshark_capture_packets interface duration filter_str None w) =
           Return d
         /\ get "output_file" d = Some (VStr name)
         /\ name <> EmptyString).
Proof.
  intros H.
  destruct (H Scenario.missing "1" 5 None) as (d & name & Hd & Hget & _).
  vm_compute in Hd. injection Hd as <-. discriminate Hget.
Qed.

(** C6, as amended: [capture_packets] builds
    [tshark -i <interface> -a duration:<duration>], followed by
    [-f <filter>] exactly when the filter is a non-empty string and by
    [-w <path>] exactly when the output path is a non-empty string.  When
    the caller of the tool gives no output path, the handler passes
    [capture_<int(time.time())>.pcap] instead, and whenever the process is
    launched, whatever its exit status, the returned mapping carries that
    non-empty name as its [output_file]. *)
Theorem capture_argv_and_default_name (interface : string) (duration : Z)
    (filter_str output_file : option string) (w : world)
    (rc : Z) (out err : string)
    (Homitted : absent output_file)
    (Hrun : binaries w
              (WiresharkTools.capture_cmd interface duration filter_str
                 (Some (Tools.default_capture_name (now w)))) =
            Exited rc out err) :
  (forall f o, absent f -> absent o ->
     WiresharkTools.capture_cmd interface duration f o =
       capture_base interface duration)
  /\ (forall s o, s <> EmptyString -> absent o ->
        WiresharkTools.capture_cmd interface duration (Some s) o =
          (capture_base interface duration ++ ["-f"; s])%list)
  /\ (forall f p, absent f -> p <> EmptyString ->
        WiresharkTools.capture_cmd interface duration f (Some p) =
          (capture_base interface duration ++ ["-w"; p])%list)
  /\ (forall s p, s <> EmptyString -> p <> EmptyString ->
        WiresharkTools.capture_cmd interface duration (Some s) (Some p) =
          (capture_base interface duration ++ ["-f"; s; "-w"; p])%list)
  /\ (forall f o w',
        invoked (snd (WiresharkTools.capture_packets interface duration f o w')) =
          (invoked w' ++ [WiresharkTools.capture_cmd interface duration f o])%list)
  /\ Tools.wireshark_capture_packets interface duration filter_str output_file w =
       (Return [("success", VBool (rc =? 0)); ("stdout", VStr out);
                ("stderr", VStr err);
                ("output_file", VStr (Tools.default_capture_name (now w)))],
        logged w
          (WiresharkTools.capture_cmd interface duration filter_str
             (Some (Tools.default_capture_name (now w)))))
  /\ Tools.default_capture_name (now w) =
       "capture_" ++ str_of_int (now w) ++ ".pcap"
  /\ Tools.default_capture_name (now w) <> EmptyString.
Proof.
  unfold WiresharkTools.capture_cmd. fold (capture_base interface duration).
  split.
  { intros f o Hf Ho. rewrite !extend_if_str_absent by assumption.
    now rewrite !app_nil_r. }
  split.
  { intros s o Hs Ho. rewrite extend_if_str_given, extend_if_str_absent by assumption.
    now rewrite app_nil_r. }
  split.
  { intros f p Hf Hp. now rewrite extend_if_str_absent, extend_if_str_given. }
  split.
  { intros s p Hs Hp. now rewrite !extend_if_str_given. }
  split.
  { intros f o w'. now rewrite capture_packets_eval. }
  split; [|split; [reflexivity | apply default_capture_name_nonempty]].
  rewrite wireshark_capture_packets_eval.
  unfold effective_output. rewrite (absent_not_truthy _ Homitted).
  unfold WiresharkTools.capture_cmd. fold (capture_base interface duration).
  unfold WiresharkTools.capture_cmd in Hrun.
  fold (capture_base interface duration) in Hrun.
  now rewrite Hrun.
Qed.

(** The sample of the specification: five seconds on interface 1, no
    filter, no output path. *)
Lemma capture_argv_and_default_name_witness :
  absent None
  /\ Tools.wireshark_capture_packets "1" 5 None None
       (Scenario.answering 0 "42 packets" EmptyString) =
       (Return [("success", VBool true); ("stdout", VStr "42 packets");
                ("stderr", VStr EmptyString);
                ("output_file", VStr "capture_1700000000.pcap")],
        mkWorld (binaries (Scenario.answering 0 "42 packets" EmptyString))
          [["tshark"; "-i"; "1"; "-a"; "duration:5"; "-w"; "capture_1700000000.pcap"]]
          1700000000).
Proof.
  assert (H : absent None) by (left; reflexivity).
  split; [exact H|].
  exact (proj1 (proj2 (proj2 (proj2 (proj2 (proj2
           (capture_argv_and_default_name "1" 5 None None
              (Scenario.answering 0 "42 packets" EmptyString)
              0 "42 packets" EmptyString H eq_refl))))))).
Defined.

(** ** Reading a capture file *)

Lemma read_capture_file_eval (file_path : string) (filter_str : option string)
    (limit : option Z) (w : world) :
  let cmd := WiresharkTools.read_cmd file_path filter_str limit in
  WiresharkTools.read_capture_file file_path filter_str limit w =
    (match binaries w cmd with
     | Exited rc out err =>
         Return [("success", VBool (rc =? 0)); ("stdout", VStr out);
                 ("stderr", VStr err)]
     | NotStarted e =>
         if is_SubprocessError e then Return (WiresharkTools.failure e) else Raise e
     end, logged w cmd).
Proof.
  intros cmd. unfold WiresharkTools.read_capture_file, try_except, bind.
  fold cmd. launch_cases w cmd.
  - rewrite (run_exited _ _ false rc out err Hlaunch). reflexivity.
  - rewrite (run_not_started _ _ false e Hlaunch).
    destruct (is_SubprocessError e); reflexivity.
Qed.

Lemma wireshark_read_capture_eq (file_path : string) (filter_str : option string)
    (limit : option Z) (w : world) :
  Tools.wireshark_read_capture file_path filter_str limit w =
    WiresharkTools.read_capture_file file_path filter_str limit w.
Proof.
  unfold Tools.wireshark_read_capture, bind, ret.
  destruct (WiresharkTools.read_capture_file file_path filter_str limit w)
    as [[d|e] w']; reflexivity.
Qed.

(** ** Exit status and the shape of results *)

(** C7: when the launched process exits, with whatever status [rc], the
    capture, read and analyze operations return (they do not raise) a
    mapping whose [success] is the truth value of [rc == 0] and whose
    [stdout] and [stderr] are the texts the process wrote. *)
Theorem exit_status_is_reported (w : world) (rc : Z) (out err : string) :
  ((rc =? 0) = true <-> rc = 0)
  /\ (forall interface duration filter_str output_file,
        binaries w (WiresharkTools.capture_cmd interface duration filter_str output_file) =
          Exited rc out err ->
        fst (WiresharkTools.capture_packets interface duration filter_str output_file w) =
          Return (process_outcome rc out err ++
                    [("output_file",
                      if truthy_str output_file then of_opt_str output_file
                      else VNone)])%list)
  /\ (forall file_path filter_str limit,
        binaries w (WiresharkTools.read_cmd file_path filter_str limit) =
          Exited rc out err ->
        fst (WiresharkTools.read_capture_file file_path filter_str limit w) =
          Return (process_outcome rc out err))
  /\ (forall file_path analysis_type selector,
        lookup analysis_type WiresharkTools.supported_types = Some selector ->
        binaries w (WiresharkTools.analyze_cmd file_path selector) =
          Exited rc out err ->
        fst (WiresharkTools.analyze_capture file_path analysis_type w) =
          Return (process_outcome rc out err)).
Proof.
  split; [apply Z.eqb_eq|].
  split; [|split].
  - intros interface duration filter_str output_file H.
    rewrite capture_packets_eval. simpl. now rewrite H.
  - intros file_path filter_str limit H.
    rewrite read_capture_file_eval. simpl. now rewrite H.
  - intros file_path analysis_type selector Hsel H.
    rewrite (analyze_capture_valid _ _ _ _ Hsel). simpl. now rewrite H.
Qed.

(** A [tshark] that exits with status 2 after complaining about the
    filter: all three operations report [success = False] and relay the
    texts. *)
Lemma exit_status_is_reported_witness :
  fst (WiresharkTools.capture_packets "1" 5 (Some "tcp port") None
         (Scenario.answering 2 EmptyString "tshark: invalid filter")) =
    Return [("success", VBool false); ("stdout", VStr EmptyString);
            ("stderr", VStr "tshark: invalid filter"); ("output_file", VNone)]
  /\ fst (WiresharkTools.read_capture_file "trace.pcap" (Some "http") (Some 10)
            (Scenario.answering 2 EmptyString "tshark: invalid filter")) =
       Return [("success", VBool false); ("stdout", VStr EmptyString);
               ("stderr", VStr "tshark: invalid filter")]
  /\ fst (WiresharkTools.analyze_capture "trace.pcap" "dns"
            (Scenario.answering 2 EmptyString "tshark: invalid filter")) =
       Return [("success", VBool false); ("stdout", VStr EmptyString);
               ("stderr", VStr "tshark: invalid filter")].
Proof.
  pose proof (exit_status_is_reported
                (Scenario.answering 2 EmptyString "tshark: invalid filter")
                2 EmptyString "tshark: invalid filter") as (_ & Hc & Hr & Ha).
  split; [|split].
  - exact (Hc "1" 5 (Some "tcp port") None eq_refl).
  - exact (Hr "trace.pcap" (Some "http") (Some 10) eq_refl).
  - exact (Ha "trace.pcap" "dns" "dns,tree" eq_refl eq_refl).
Defined.

(** The mappings the three operations build are of one shape each. *)
Lemma outcome_one_shape (rc : Z) (out err : string) (extra : dict) :
  extra = [] \/ (exists v, extra = [("output_file", v)]) ->
  one_shape (process_outcome rc out err ++ extra)%list.
Proof.
  intros [-> | [v ->]]; left; split; reflexivity.
Qed.

Lemma failure_one_shape (e : exc) : one_shape (WiresharkTools.failure e).
Proof. right. split; reflexivity. Qed.

Lemma unsupported_one_shape (msg : string) :
  one_shape [("success", VBool false); ("error", VStr msg)].
Proof. right. split; reflexivity. Qed.

Lemma capture_packets_one_shape (interface : string) (duration : Z)
    (filter_str output_file : option string) (w : world) (d : dict) :
  fst (WiresharkTools.capture_packets interface duration filter_str output_file w) =
    Return d -> one_shape d.
Proof.
  rewrite capture_packets_eval. simpl.
  launch_cases w (WiresharkTools.capture_cmd interface duration filter_str output_file).
  - intros H. injection H as <-.
    apply (outcome_one_shape rc out err [("output_file", _)]). right. eauto.
  - destruct (is_SubprocessError e); [|discriminate].
    intros H. injection H as <-. apply failure_one_shape.
Qed.

Lemma read_capture_file_one_shape (file_path : string) (filter_str : option string)
    (limit : option Z) (w : world) (d : dict) :
  fst (WiresharkTools.read_capture_file file_path filter_str limit w) = Return d ->
  one_shape d.
Proof.
  rewrite read_capture_file_eval. simpl.
  launch_cases w (WiresharkTools.read_cmd file_path filter_str limit).
  - intros H. injection H as <-.
    apply (outcome_one_shape rc out err []). now left.
  - destruct (is_SubprocessError e); [|discriminate].
    intros H. injection H as <-. apply failure_one_shape.
Qed.

Lemma analyze_capture_one_shape (file_path analysis_type : string)
    (w : world) (d : dict) :
  fst (WiresharkTools.analyze_capture file_path analysis_type w) = Return d ->
  one_shape d.
Proof.
  destruct (lookup analysis_type WiresharkTools.supported_types) as [selector|] eqn:Hsel.
  - rewrite (analyze_capture_valid _ _ _ _ Hsel). simpl.
    launch_cases w (WiresharkTools.analyze_cmd file_path selector).
    + intros H. injection H as <-.
      apply (outcome_one_shape rc out err []). now left.
    + destruct (is_SubprocessError e); [|discriminate].
      intros H. injection H as <-. apply failure_one_shape.
  - unfold WiresharkTools.analyze_capture. rewrite Hsel. simpl.
    intros H. injection H as <-. apply unsupported_one_shape.
Qed.

Lemma wireshark_capture_packets_one_shape (interface : string) (duration : Z)
    (filter_str output_file : option string) (w : world) (d : dict) :
  fst (Tools.wireshark_capture_packets interface duration filter_str output_file w) =
    Return d -> one_shape d.
Proof.
  rewrite wireshark_capture_packets_eval. simpl.
  launch_cases w (WiresharkTools.capture_cmd interface duration filter_str
                    (effective_output output_file w)).
  - intros H. injection H as <-.
    apply (outcome_one_shape rc out err [("output_file", _)]). right. eauto.
  - intros H. injection H as <-. apply unsupported_one_shape.
Qed.

(** X17: every mapping returned by the capture, read and analyze
    operations and by their tools is of exactly one of the two shapes:
    either it has [stdout] and [stderr] and no [error], or it has an
    [error] message and none of [stdout], [stderr], [output_file]. *)
Theorem returned_one_shape (d : dict) (Hret : returned d) :
  (success_shaped d = true /\ failure_shaped d = false)
  \/ (success_shaped d = false /\ failure_shaped d = true).
Proof.
  change (one_shape d).
  destruct Hret as [i du f o w d H | p f l w d H | p t w d H
                   | i du f o w d H | p f l w d H | p t w d H].
  - exact (capture_packets_one_shape _ _ _ _ _ _ H).
  - exact (read_capture_file_one_shape _ _ _ _ _ H).
  - exact (analyze_capture_one_shape _ _ _ _ H).
  - exact (wireshark_capture_packets_one_shape _ _ _ _ _ _ H).
  - rewrite wireshark_read_capture_eq in H.
    exact (read_capture_file_one_shape _ _ _ _ _ H).
  - rewrite wireshark_analyze_eq in H.
    exact (analyze_capture_one_shape _ _ _ _ H).
Qed.

Lemma returned_one_shape_witness :
  returned [("success", VBool false);
            ("error", VStr "[Errno 2] No such file or directory: 'tshark'")]
  /\ success_shaped
       [("success", VBool false);
        ("error", VStr "[Errno 2] No such file or directory: 'tshark'")] = false
  /\ failure_shaped
       [("success", VBool false);
        ("error", VStr "[Errno 2] No such file or directory: 'tshark'")] = true.
Proof.
  assert (H : returned
                [("success", VBool false);
                 ("error", VStr "[Errno 2] No such file or directory: 'tshark'")]).
  { apply (returned_wireshark_capture_packets "1" 5 None None Scenario.missing).
    reflexivity. }
  split; [exact H|].
  destruct (returned_one_shape _ H) as [[Hs _] | Hf]; [discriminate Hs | exact Hf].
Defined.

(** C8, the code at the failing input: with no [tshark] on the PATH the
    read and analyze tools return no result at all.  [subprocess.run]
    raises [FileNotFoundError], which the [except SubprocessError] of
    [read_capture_file] and [analyze_capture] does not catch and which
    the two tools, having no handler, pass on to their caller; the
    sibling capture tool wraps the same call in [except Exception] and
    returns the failure mapping. *)
Lemma read_and_analyze_tools_raise_without_tshark :
  fst (Tools.wireshark_read_capture "trace.pcap" None (Some 100) Scenario.missing) =
    Raise Scenario.no_such_file
  /\ fst (Tools.wireshark_analyze "trace.pcap" "protocols" Scenario.missing) =
       Raise Scenario.no_such_file
  /\ fst (Tools.wireshark_capture_packets "1" 10 None None Scenario.missing) =
       Return [("success", VBool false);
               ("error", VStr "[Errno 2] No such file or directory: 'tshark'")].
Proof. repeat split. Qed.

(** ** The record limit of a read *)

Lemma to_int_not_nil (z : Z) :
  Z.to_int z <> Decimal.Pos Decimal.Nil /\ Z.to_int z <> Decimal.Neg Decimal.Nil.
Proof.
  destruct z as [|p|p]; simpl; split; try discriminate;
    intros H; injection H as H;
    now apply (DecimalPos.Unsigned.to_uint_nonnil p).
Qed.

(** [str_of_int] writes the decimal numeral of its argument: reading the
    text back as a signed decimal gives the integer again. *)
Lemma str_of_int_decimal (z : Z) :
  option_map Z.of_int (NilZero.int_of_string (str_of_int z)) = Some z.
Proof.
  unfold str_of_int. destruct (to_int_not_nil z) as [Hp Hn].
  rewrite (NilZero.isi _ Hp Hn). simpl. f_equal. apply DecimalZ.of_to.
Qed.

Lemma truthy_int_false (limit : option Z) :
  truthy_int limit = false <-> limit = None \/ limit = Some 0.
Proof.
  destruct limit as [n|]; simpl.
  - rewrite negb_false_iff, Z.eqb_eq. split.
    + intros ->. now right.
    + intros [H|H]; [discriminate | now injection H].
  - split; [now left | reflexivity].
Qed.

(** C9: [read_capture_file] appends [-c <limit>] exactly when the limit
    is truthy.  For a positive limit the argument vector is the one of an
    unlimited read followed by [-c] and the decimal numeral of the limit;
    for a limit of 0 or [None] it is the unlimited one,
    [tshark -r <file>] plus the optional display filter; and that vector
    is what the operation hands to [subprocess.run]. *)
Theorem read_cmd_limit (file_path : string) (filter_str : option string)
    (n : Z) (Hpos : 0 < n) :
  WiresharkTools.read_cmd file_path filter_str (Some n) =
    (WiresharkTools.read_cmd file_path filter_str None ++ ["-c"; str_of_int n])%list
  /\ option_map Z.of_int (NilZero.int_of_string (str_of_int n)) = Some n
  /\ WiresharkTools.read_cmd file_path filter_str (Some 0) =
       WiresharkTools.read_cmd file_path filter_str None
  /\ WiresharkTools.read_cmd file_path filter_str None =
       (["tshark"; "-r"; file_path]
          ++ WiresharkTools.extend_if_str "-Y" filter_str)%list
  /\ (forall limit,
        truthy_int limit = false ->
        (limit = None \/ limit = Some 0)
        /\ WiresharkTools.read_cmd file_path filter_str limit =
             WiresharkTools.read_cmd file_path filter_str None)
  /\ (forall limit,
        truthy_int limit = true ->
        exists m, limit = Some m /\ m <> 0
          /\ WiresharkTools.read_cmd file_path filter_str limit =
               (WiresharkTools.read_cmd file_path filter_str None
                  ++ ["-c"; str_of_int m])%list)
  /\ (forall limit w,
        invoked (snd (WiresharkTools.read_capture_file file_path filter_str limit w)) =
          (invoked w ++ [WiresharkTools.read_cmd file_path filter_str limit])%list).
Proof.
  assert (Hsome : forall m, m <> 0 ->
            WiresharkTools.read_cmd file_path filter_str (Some m) =
              (WiresharkTools.read_cmd file_path filter_str None
                 ++ ["-c"; str_of_int m])%list).
  { intros m Hm. unfold WiresharkTools.read_cmd, WiresharkTools.extend_if_str,
      WiresharkTools.extend_if_int, truthy_int.
    apply Z.eqb_neq in Hm. rewrite Hm. simpl negb. cbv iota.
    now rewrite !app_nil_r, <- !app_assoc. }
  split; [apply Hsome; lia|].
  split; [apply str_of_int_decimal|].
  split; [unfold WiresharkTools.read_cmd; simpl; now rewrite !app_nil_r|].
  split; [unfold WiresharkTools.read_cmd; simpl; now rewrite !app_nil_r|].
  split; [|split].
  - intros limit Hl. apply truthy_int_false in Hl as Hcases. split; [exact Hcases|].
    destruct Hcases as [-> | ->]; [reflexivity|].
    unfold WiresharkTools.read_cmd. simpl. now rewrite !app_nil_r.
  - intros [m|] Hl; [|discriminate Hl].
    simpl in Hl. apply negb_true_iff, Z.eqb_neq in Hl.
    exists m. repeat split; [exact Hl | now apply Hsome].
  - intros limit w. now rewrite read_capture_file_eval.
Qed.

Lemma read_cmd_limit_witness :
  0 < 10
  /\ WiresharkTools.read_cmd "trace.pcap" (Some "dns") (Some 10) =
       ["tshark"; "-r"; "trace.pcap"; "-Y"; "dns"; "-c"; "10"].
Proof.
  assert (H : 0 < 10) by lia.
  split; [exact H|].
  exact (proj1 (read_cmd_limit "trace.pcap" (Some "dns") 10 H)).
Defined.

(** ** The capture tool never raises *)

(** C10: whatever its arguments and whatever the launch of [tshark]
    leads to, [wireshark_capture_packets] returns a mapping, and that
    mapping has a boolean [success] entry; when the launch raises an
    exception [e], of any class, the mapping is
    [{success: False, error: str(e)}]. *)
Theorem wireshark_capture_packets_never_raises (interface : string)
    (duration : Z) (filter_str output_file : option string) (w : world) :
  exists d b,
    fst (Tools.wireshark_capture_packets interface duration filter_str output_file w) =
      Return d
    /\ get "success" d = Some (VBool b)
    /\ (forall e,
          binaries w (WiresharkTools.capture_cmd interface duration filter_str
                        (effective_output output_file w)) = NotStarted e ->
          d = [("success", VBool false); ("error", VStr (exc_str e))]).
Proof.
  rewrite wireshark_capture_packets_eval. simpl.
  launch_cases w (WiresharkTools.capture_cmd interface duration filter_str
                    (effective_output output_file w)).
  - eexists. exists (rc =? 0). repeat split. intros e H. discriminate H.
  - eexists. exists false. repeat split. intros e' H. now injection H as <-.
Qed.

(** The handler is what stands between a launch failure and the caller:
    for the same missing binary the static method raises and the tool
    returns. *)
Lemma wireshark_capture_packets_absorbs_missing_binary :
  fst (WiresharkTools.capture_packets "1" 5 None (Some "out.pcap") Scenario.missing) =
    Raise Scenario.no_such_file
  /\ fst (Tools.wireshark_capture_packets "1" 5 None (Some "out.pcap") Scenario.missing) =
       Return [("success", VBool false);
               ("error", VStr "[Errno 2] No such file or directory: 'tshark'")].
Proof. split; reflexivity. Qed.

(** * Further properties of the code *)

Import Obj.

(** ** Launch errors of the three operations *)

(** X1: when launching [tshark] raises [e], each of [capture_packets],
    [read_capture_file] and [analyze_capture] (for a valid type), and the
    read and analyze tools with them, returns
    [{success: False, error: str(e)}] if [e] is a [SubprocessError] and
    lets [e] propagate unchanged otherwise; a missing binary
    ([FileNotFoundError]) is of the second kind. *)
Theorem launch_error_of_operations (w : world) (e : exc) :
  (forall interface duration filter_str output_file,
     binaries w (WiresharkTools.capture_cmd interface duration filter_str output_file) =
       NotStarted e ->
     fst (WiresharkTools.capture_packets interface duration filter_str output_file w) =
       if is_SubprocessError e
       then Return [("success", VBool false); ("error", VStr (exc_str e))]
       else Raise e)
  /\ (forall file_path filter_str limit,
        binaries w (WiresharkTools.read_cmd file_path filter_str limit) = NotStarted e ->
        fst (WiresharkTools.read_capture_file file_path filter_str limit w) =
          (if is_SubprocessError e
           then Return [("success", VBool false); ("error", VStr (exc_str e))]
           else Raise e)
        /\ fst (Tools.wireshark_read_capture file_path filter_str limit w) =
             fst (WiresharkTools.read_capture_file file_path filter_str limit w))
  /\ (forall file_path analysis_type selector,
        lookup analysis_type WiresharkTools.supported_types = Some selector ->
        binaries w (WiresharkTools.analyze_cmd file_path selector) = NotStarted e ->
        fst (WiresharkTools.analyze_capture file_path analysis_type w) =
          (if is_SubprocessError e
           then Return [("success", VBool false); ("error", VStr (exc_str e))]
           else Raise e)
        /\ fst (Tools.wireshark_analyze file_path analysis_type w) =
             fst (WiresharkTools.analyze_capture file_path analysis_type w))
  /\ is_SubprocessError Scenario.no_such_file = false.
Proof.
  split; [|split; [|split; [|reflexivity]]].
  - intros interface duration filter_str output_file H.
    rewrite capture_packets_eval. simpl. rewrite H.
    destruct (is_SubprocessError e); reflexivity.
  - intros file_path filter_str limit H. rewrite wireshark_read_capture_eq.
    split; [|reflexivity].
    rewrite read_capture_file_eval. simpl. rewrite H.
    destruct (is_SubprocessError e); reflexivity.
  - intros file_path analysis_type selector Hsel H. rewrite wireshark_analyze_eq.
    split; [|reflexivity].
    rewrite (analyze_capture_valid _ _ _ _ Hsel). simpl. rewrite H.
    destruct (is_SubprocessError e); reflexivity.
Qed.

Lemma launch_error_of_operations_witness :
  fst (Tools.wireshark_read_capture "trace.pcap" None (Some 100) Scenario.missing) =
    Raise Scenario.no_such_file
  /\ fst (Tools.wireshark_analyze "trace.pcap" "http" Scenario.missing) =
       Raise Scenario.no_such_file.
Proof.
  pose proof (launch_error_of_operations Scenario.missing Scenario.no_such_file)
    as (_ & Hr & Ha & _).
  split.
  - destruct (Hr "trace.pcap" None (Some 100) eq_refl) as [H1 H2].
    rewrite H2. exact H1.
  - destruct (Ha "trace.pcap" "http" "http,tree" eq_refl eq_refl) as [H1 H2].
    rewrite H2. exact H1.
Defined.

(** ** The output file of a capture *)

(** X2: the capture tool always asks [tshark] to write a file.  Whenever
    the process is launched, the [output_file] of the result is a
    non-empty name, the argument vector ends with [-w] and that very
    name, and the name is the caller's whenever the caller gave a
    non-empty one.  The static method, by contrast, reports
    [output_file = None] and passes no [-w] when it is given no path. *)
Theorem capture_output_file_is_written (interface : string) (duration : Z)
    (filter_str output_file : option string) (w : world)
    (rc : Z) (out err : string)
    (Hrun : binaries w
              (WiresharkTools.capture_cmd interface duration filter_str
                 (effective_output output_file w)) = Exited rc out err) :
  (exists name d,
     name <> EmptyString
     /\ Tools.wireshark_capture_packets interface duration filter_str output_file w =
          (Return d,
           logged w (capture_base interface duration
                       ++ WiresharkTools.extend_if_str "-f" filter_str
                       ++ ["-w"; name])%list)
     /\ get "output_file" d = Some (VStr name)
     /\ get "success" d = Some (VBool (rc =? 0))
     /\ (forall p, output_file = Some p -> p <> EmptyString -> name = p))
  /\ (forall w' rc' out' err',
        absent output_file ->
        binaries w' (WiresharkTools.capture_cmd interface duration filter_str output_file) =
          Exited rc' out' err' ->
        exists d',
          WiresharkTools.capture_packets interface duration filter_str output_file w' =
            (Return d',
             logged w' (capture_base interface duration
                          ++ WiresharkTools.extend_if_str "-f" filter_str)%list)
          /\ get "output_file" d' = Some VNone).
Proof.
  split.
  - rewrite wireshark_capture_packets_eval. cbv zeta. rewrite Hrun.
    pose proof (effective_output_truthy output_file w) as Ht.
    destruct (effective_output output_file w) as [name|] eqn:Heff; [|discriminate Ht].
    assert (Hname : name <> EmptyString).
    { intros ->. discriminate Ht. }
    exists name. eexists. split; [exact Hname|].
    split.
    + unfold WiresharkTools.capture_cmd. fold (capture_base interface duration).
      now rewrite (extend_if_str_given "-w" name Hname).
    + split; [reflexivity|]. split; [reflexivity|].
      intros p -> Hp. unfold effective_output in Heff.
      rewrite (nonempty_truthy p Hp) in Heff. now injection Heff as <-.
  - intros w' rc' out' err' Habs H.
    rewrite capture_packets_eval. cbv zeta. rewrite H.
    eexists. split.
    + unfold WiresharkTools.capture_cmd. fold (capture_base interface duration).
      now rewrite (extend_if_str_absent "-w" _ Habs), app_nil_r.
    + simpl. now rewrite (absent_not_truthy _ Habs).
Qed.

Lemma capture_output_file_is_written_witness :
  exists name d,
    name <> EmptyString
    /\ Tools.wireshark_capture_packets "2" 30 (Some "tcp port 443")
         (Some "https.pcap") (Scenario.answering 0 EmptyString EmptyString) =
         (Return d,
          logged (Scenario.answering 0 EmptyString EmptyString)
            (capture_base "2" 30
               ++ WiresharkTools.extend_if_str "-f" (Some "tcp port 443")
               ++ ["-w"; name])%list)
    /\ get "output_file" d = Some (VStr name)
    /\ get "success" d = Some (VBool (0 =? 0))
    /\ (forall p, Some "https.pcap" = Some p -> p <> EmptyString -> name = p).
Proof.
  exact (proj1 (capture_output_file_is_written "2" 30 (Some "tcp port 443")
                  (Some "https.pcap") (Scenario.answering 0 EmptyString EmptyString)
                  0 EmptyString EmptyString eq_refl)).
Defined.

(** ** More on the interface listing *)

Lemma string_app_assoc (a b c : string) : (a ++ b) ++ c = a ++ (b ++ c).
Proof.
  induction a as [|x r IH]; simpl; [reflexivity | now rewrite IH].
Qed.

Lemma contains_append (c : ascii) (a b : string) :
  contains c (a ++ b) = contains c a || contains c b.
Proof.
  induction a as [|c' r IH]; simpl; [reflexivity|].
  now rewrite IH, orb_assoc.
Qed.

(** What a cut in two says about the text that was cut. *)
Lemma split1_two_parts (sep : ascii) (s p0 p1 : string) (rest : list string) :
  split1 sep s = p0 :: p1 :: rest ->
  rest = [] /\ s = p0 ++ String sep p1 /\ contains sep p0 = false.
Proof.
  revert p0. induction s as [|c r IH]; intros p0; simpl; [discriminate|].
  destruct (Ascii.eqb c sep) eqn:E.
  - intros H. injection H as <- <- <-. apply Ascii.eqb_eq in E. subst c.
    repeat split.
  - destruct (split1 sep r) as [|h t] eqn:Hr; [discriminate|].
    intros H. injection H as <- ->.
    destruct (IH h eq_refl) as (Hrest & Hs & Hc).
    repeat split; [exact Hrest | simpl; now rewrite Hs | simpl; now rewrite E, Hc].
Qed.

Lemma split_pieces_no_sep (sep : ascii) (s l : string) :
  In l (split sep s) -> contains sep l = false.
Proof.
  revert l. induction s as [|c r IH]; intros l; simpl.
  - intros [<-|[]]. reflexivity.
  - destruct (Ascii.eqb c sep) eqn:E.
    + intros [<-|H]; [reflexivity | now apply IH].
    + destruct (split sep r) as [|h t] eqn:Hr.
      * intros [<-|[]]. simpl. now rewrite E.
      * intros [<-|H].
        -- simpl. rewrite E. apply IH. now left.
        -- apply IH. now right.
Qed.

Lemma rstrip_by_contains (p : ascii -> bool) (c : ascii) (s : string) :
  contains c s = false -> contains c (rstrip_by p s) = false.
Proof.
  destruct (rstrip_by_decompose p s) as (t & Heq & _ & _).
  intros H. rewrite Heq, contains_append in H.
  now apply orb_false_iff in H as [H _].
Qed.

(** The record of a line, and the line rebuilt from it. *)
Lemma parse_line_inv (line : string) (r : dict) :
  In r (WiresharkTools.parse_line line) ->
  exists p0 description,
    WiresharkTools.parse_line line =
      [[("index", VStr (rstrip_char DOT p0)); ("interface", VStr description)]]
    /\ r = [("index", VStr (rstrip_char DOT p0)); ("interface", VStr description)]
    /\ line = p0 ++ String SPACE description
    /\ contains SPACE p0 = false.
Proof.
  unfold WiresharkTools.parse_line.
  destruct (negb (String.eqb line EmptyString)); [|intros []].
  destruct (split1 SPACE line) as [|p0 [|p1 rest]] eqn:Hs;
    [intros [] | intros [] |].
  intros [<-|[]].
  destruct (split1_two_parts _ _ _ _ _ Hs) as (_ & Hline & Hc).
  exists p0, p1. repeat split; assumption.
Qed.

(** X3: a line that yields a record can be rebuilt from it.  The record
    is the only one of the line, it has the two entries [index] and
    [interface], and the line is the index, some periods, one blank and
    the description; the index has no blank and does not end with a
    period. *)
Theorem parse_line_reconstructs (line : string) (r : dict)
    (Hr : In r (WiresharkTools.parse_line line)) :
  WiresharkTools.parse_line line = [r]
  /\ exists index description k,
       r = [("index", VStr index); ("interface", VStr description)]
       /\ line = index ++ dots k ++ String SPACE description
       /\ contains SPACE index = false
       /\ last_char index <> Some DOT.
Proof.
  destruct (parse_line_inv line r Hr) as (p0 & description & Hparse & -> & Hline & Hc).
  split; [exact Hparse|].
  destruct (rstrip_char_dots p0) as (k & Hp0 & Hlast).
  exists (rstrip_char DOT p0), description, k.
  repeat split.
  - rewrite Hline. rewrite Hp0 at 1. apply string_app_assoc.
  - apply rstrip_by_contains. exact Hc.
  - exact Hlast.
Qed.

Lemma parse_line_reconstructs_witness :
  WiresharkTools.parse_line "3.. any (Pseudo-device)" =
    [[("index", VStr "3"); ("interface", VStr "any (Pseudo-device)")]].
Proof.
  apply (proj1 (parse_line_reconstructs "3.. any (Pseudo-device)"
                  [("index", VStr "3"); ("interface", VStr "any (Pseudo-device)")]
                  (or_introl eq_refl))).
Defined.

Lemma start_byte_not_second (c : ascii) :
  start_byte c = true ->
  byte_in c [133; 160]%nat = false
  /\ byte_in c [154%nat] = false
  /\ byte_in c [128%nat] = false
  /\ byte_in c [129%nat] = false
  /\ byte_in c [159%nat] = false
  /\ byte_in c [128; 129; 130; 131; 132; 133; 134; 135; 136; 137; 138;
                168; 169; 175]%nat = false.
Proof.
  destruct c as [[] [] [] [] [] [] [] []]; intros H; try discriminate H;
    repeat split; reflexivity.
Qed.

Lemma start_byte_no_space2 (x c : ascii) : start_byte c = true -> space2 x c = false.
Proof.
  intros H. destruct (start_byte_not_second c H) as (H1 & _).
  unfold space2. rewrite H1. apply andb_false_r.
Qed.

Lemma start_byte_no_space3_mid (x c y : ascii) :
  start_byte c = true -> space3 x c y = false.
Proof.
  intros H. destruct (start_byte_not_second c H) as (_ & H2 & H3 & H4 & _).
  unfold space3. rewrite H2, H3, H4.
  now rewrite !andb_false_r, !andb_false_l.
Qed.

Lemma start_byte_no_space3_last (x y c : ascii) :
  start_byte c = true -> space3 x y c = false.
Proof.
  intros H. destruct (start_byte_not_second c H) as (_ & _ & H3 & _ & H5 & H6).
  unfold space3. rewrite H3, H5, H6.
  now rewrite !andb_false_r.
Qed.

Lemma space_head_start (s r : string) :
  space_head s = Some r -> exists c t, s = String c t /\ start_byte c = true.
Proof.
  destruct s as [|b1 r1]; [discriminate|]. intros H. exists b1, r1. split; [reflexivity|].
  unfold start_byte. simpl in H.
  destruct (isspace b1); [reflexivity|]. simpl.
  destruct r1 as [|b2 r2]; [discriminate|].
  destruct (space2 b1 b2) eqn:E2.
  - unfold space2 in E2. apply andb_true_iff in E2 as [E2 _].
    revert E2. unfold byte_in. simpl. rewrite !orb_false_r. intros ->. reflexivity.
  - destruct r2 as [|b3 r3]; [discriminate|].
    destruct (space3 b1 b2 b3) eqn:E3; [|discriminate].
    unfold space3 in E3. unfold byte_in in *. simpl in *.
    rewrite !orb_false_r in *.
    destruct (Nat.eqb (nat_of_ascii b1) 225); [now rewrite ?orb_true_r|].
    destruct (Nat.eqb (nat_of_ascii b1) 226); [now rewrite ?orb_true_r|].
    destruct (Nat.eqb (nat_of_ascii b1) 227); [now rewrite ?orb_true_r|].
    simpl in E3. discriminate E3.
Qed.

Lemma string_app_empty_r (s : string) : s ++ EmptyString = s.
Proof. induction s as [|c r IH]; simpl; [reflexivity | now rewrite IH]. Qed.

Lemma space_head_shorter (s r : string) :
  space_head s = Some r -> (String.length r < String.length s)%nat.
Proof.
  destruct s as [|b1 [|b2 [|b3 r3]]]; simpl; try discriminate.
  - destruct (isspace b1); [|discriminate]. intros H. injection H as <-. simpl. lia.
  - destruct (isspace b1); [intros H; injection H as <-; simpl; lia|].
    destruct (space2 b1 b2); [|discriminate]. intros H. injection H as <-. simpl. lia.
  - destruct (isspace b1); [intros H; injection H as <-; simpl; lia|].
    destruct (space2 b1 b2); [intros H; injection H as <-; simpl; lia|].
    destruct (space3 b1 b2 b3); [|discriminate]. intros H. injection H as <-. simpl. lia.
Qed.

Lemma lstrip_space_unfold (s : string) :
  lstrip_space s =
    match space_head s with
    | Some r => lstrip_space r
    | None => s
    end.
Proof.
  destruct s as [|b1 [|b2 [|b3 r3]]]; simpl; try reflexivity.
  - destruct (isspace b1); reflexivity.
  - destruct (isspace b1); [reflexivity|]. destruct (space2 b1 b2); reflexivity.
  - destruct (isspace b1); [reflexivity|]. destruct (space2 b1 b2); [reflexivity|].
    destruct (space3 b1 b2 b3); reflexivity.
Qed.

Lemma blank_unfold (s : string) :
  blank s =
    match s with
    | EmptyString => true
    | String _ _ =>
        match space_head s with
        | Some r => blank r
        | None => false
        end
    end.
Proof.
  destruct s as [|b1 [|b2 [|b3 r3]]]; simpl; try reflexivity.
  - destruct (isspace b1); reflexivity.
  - destruct (isspace b1); [reflexivity|]. destruct (space2 b1 b2); reflexivity.
  - destruct (isspace b1); [reflexivity|]. destruct (space2 b1 b2); [reflexivity|].
    destruct (space3 b1 b2 b3); reflexivity.
Qed.

(** A white-space character at the head of a text stays one when the
    text is continued. *)
Lemma space_head_append (a r b : string) :
  space_head a = Some r -> space_head (a ++ b) = Some (r ++ b).
Proof.
  destruct a as [|b1 [|b2 [|b3 r3]]]; simpl; try discriminate.
  - destruct (isspace b1); [|discriminate]. intros H. now injection H as <-.
  - destruct (isspace b1); [intros H; now injection H as <-|].
    destruct (space2 b1 b2); [|discriminate]. intros H. now injection H as <-.
  - destruct (isspace b1); [intros H; now injection H as <-|].
    destruct (space2 b1 b2); [intros H; now injection H as <-|].
    destruct (space3 b1 b2 b3); [|discriminate]. intros H. now injection H as <-.
Qed.

(** Bytes that do not start with a white-space character do not start
    with one either when white space follows them. *)
Lemma space_head_none_append (a b : string) :
  a <> EmptyString -> space_head a = None -> blank b = true ->
  space_head (a ++ b) = None.
Proof.
  intros Ha Hnone Hb.
  assert (Hstart : b = EmptyString \/ exists c t, b = String c t /\ start_byte c = true).
  { destruct b as [|c t]; [now left|]. right.
    rewrite blank_unfold in Hb.
    destruct (space_head (String c t)) as [r|] eqn:Hh; [|discriminate].
    exact (space_head_start _ _ Hh). }
  destruct a as [|b1 [|b2 [|b3 r3]]]; [contradiction| | |].
  - simpl in Hnone. destruct (isspace b1) eqn:E1; [discriminate|].
    destruct Hstart as [-> | (c & t & -> & Hc)]; simpl; rewrite E1; [reflexivity|].
    rewrite (start_byte_no_space2 b1 c Hc).
    destruct t as [|c' t']; [reflexivity|].
    now rewrite (start_byte_no_space3_mid b1 c c' Hc).
  - simpl in Hnone. destruct (isspace b1) eqn:E1; [discriminate|].
    destruct (space2 b1 b2) eqn:E2; [discriminate|].
    destruct Hstart as [-> | (c & t & -> & Hc)]; simpl; rewrite E1, E2; [reflexivity|].
    now rewrite (start_byte_no_space3_last b1 b2 c Hc).
  - simpl in *. destruct (isspace b1); [discriminate|].
    destruct (space2 b1 b2); [discriminate|].
    destruct (space3 b1 b2 b3); [discriminate | reflexivity].
Qed.

Lemma blank_append (a post : string) :
  blank post = true -> blank (a ++ post) = blank a.
Proof.
  intros Hpost.
  assert (H : forall n a, (String.length a <= n)%nat -> blank (a ++ post) = blank a).
  { induction n as [|n IH]; intros a0 Hlen.
    - destruct a0; [exact Hpost | simpl in Hlen; lia].
    - destruct a0 as [|c r]; [exact Hpost|].
      rewrite (blank_unfold (String c r)).
      destruct (space_head (String c r)) as [r'|] eqn:Hh.
      + pose proof (space_head_shorter _ _ Hh) as Hlt.
        rewrite blank_unfold. change (String c r ++ post) with (String c (r ++ post)).
        cbv iota. change (String c (r ++ post)) with (String c r ++ post).
        rewrite (space_head_append _ _ post Hh). apply IH. lia.
      + rewrite blank_unfold. change (String c r ++ post) with (String c (r ++ post)).
        cbv iota. change (String c (r ++ post)) with (String c r ++ post).
        rewrite space_head_none_append; [reflexivity | discriminate | exact Hh | exact Hpost]. }
  apply (H (String.length a)). lia.
Qed.

Lemma lstrip_space_blank (p rest : string) :
  blank p = true -> lstrip_space (p ++ rest) = lstrip_space rest.
Proof.
  assert (H : forall n p, (String.length p <= n)%nat -> blank p = true ->
            lstrip_space (p ++ rest) = lstrip_space rest).
  { induction n as [|n IH]; intros p0 Hp Hbl.
    - destruct p0; [reflexivity | simpl in Hp; lia].
    - destruct p0 as [|c r]; [reflexivity|].
      rewrite lstrip_space_unfold. rewrite blank_unfold in Hbl.
      destruct (space_head (String c r)) as [r'|] eqn:Hh; [|discriminate].
      rewrite (space_head_append _ _ rest Hh).
      apply IH; [|exact Hbl].
      pose proof (space_head_shorter _ _ Hh). lia. }
  apply (H (String.length p)). lia.
Qed.

Lemma lstrip_space_blank_empty (p : string) :
  blank p = true -> lstrip_space p = EmptyString.
Proof.
  intros H. rewrite <- (string_app_empty_r p) at 1.
  now rewrite (lstrip_space_blank p EmptyString H).
Qed.

Lemma lstrip_space_append (a post : string) :
  blank post = true ->
  lstrip_space (a ++ post) = if blank a then EmptyString else lstrip_space a ++ post.
Proof.
  intros Hpost.
  assert (H : forall n a, (String.length a <= n)%nat ->
            lstrip_space (a ++ post) =
              if blank a then EmptyString else lstrip_space a ++ post).
  { induction n as [|n IH]; intros a0 Hlen.
    - destruct a0 as [|c r]; [|simpl in Hlen; lia].
      now apply lstrip_space_blank_empty.
    - destruct a0 as [|c r]; [now apply lstrip_space_blank_empty|].
      rewrite (blank_unfold (String c r)), (lstrip_space_unfold (String c r ++ post)),
        (lstrip_space_unfold (String c r)).
      destruct (space_head (String c r)) as [r'|] eqn:Hh.
      + pose proof (space_head_shorter _ _ Hh) as Hlt.
        rewrite (space_head_append _ _ post Hh). apply IH. lia.
      + rewrite space_head_none_append;
          [reflexivity | discriminate | exact Hh | exact Hpost]. }
  apply (H (String.length a)). lia.
Qed.

Lemma rstrip_space_cons (c : ascii) (r : string) :
  rstrip_space (String c r) =
    if blank (String c r) then EmptyString else String c (rstrip_space r).
Proof. reflexivity. Qed.

Lemma rstrip_space_append (a post : string) :
  blank post = true -> rstrip_space (a ++ post) = rstrip_space a.
Proof.
  intros Hpost. induction a as [|c r IH].
  - change (EmptyString ++ post) with post.
    destruct post as [|c t]; [reflexivity|].
    now rewrite rstrip_space_cons, Hpost.
  - change (String c r ++ post) with (String c (r ++ post)).
    rewrite !rstrip_space_cons.
    change (String c (r ++ post)) with (String c r ++ post).
    now rewrite (blank_append _ _ Hpost), IH.
Qed.

Lemma strip_margins (pre out post : string) :
  blank pre = true -> blank post = true ->
  strip (pre ++ out ++ post) = strip out.
Proof.
  intros Hpre Hpost. unfold strip.
  rewrite (lstrip_space_blank _ _ Hpre), (lstrip_space_append _ _ Hpost).
  destruct (blank out) eqn:Hout.
  - now rewrite (lstrip_space_blank_empty _ Hout).
  - now apply rstrip_space_append.
Qed.

Lemma strip_blank (s : string) : blank s = true -> strip s = EmptyString.
Proof.
  intros H. unfold strip. now rewrite (lstrip_space_blank_empty _ H).
Qed.

(** X4: white space around the output of [tshark -D] does not matter.
    Leading and trailing white-space characters, whether ASCII (blanks,
    tabs, line feeds, the final line feed of the listing among them) or
    not (a no-break space, say), leave the parsed interfaces unchanged,
    and an output made of white space only gives no interface. *)
Theorem parse_interfaces_ignores_margins (pre out post : string)
    (Hpre : blank pre = true)
    (Hpost : blank post = true) :
  WiresharkTools.parse_interfaces (pre ++ out ++ post) =
    WiresharkTools.parse_interfaces out
  /\ WiresharkTools.parse_interfaces pre = []
  /\ WiresharkTools.parse_interfaces EmptyString = [].
Proof.
  unfold WiresharkTools.parse_interfaces.
  rewrite (strip_margins _ _ _ Hpre Hpost), (strip_blank _ Hpre).
  repeat split.
Qed.

Lemma parse_interfaces_ignores_margins_witness :
  WiresharkTools.parse_interfaces
    (String LF "  " ++ "1. eth0"
       ++ String (ascii_of_nat 194) (String (ascii_of_nat 160) (String LF EmptyString))) =
    WiresharkTools.parse_interfaces "1. eth0".
Proof.
  exact (proj1 (parse_interfaces_ignores_margins (String LF "  ") "1. eth0"
                  (String (ascii_of_nat 194)
                     (String (ascii_of_nat 160) (String LF EmptyString)))
                  eq_refl eq_refl)).
Defined.

Lemma parse_line_at_most_one (line : string) :
  (List.length (WiresharkTools.parse_line line) <= 1)%nat.
Proof.
  unfold WiresharkTools.parse_line.
  destruct (negb (String.eqb line EmptyString)); simpl; [|lia].
  destruct (split1 SPACE line) as [|p0 [|p1 rest]]; simpl; lia.
Qed.

Lemma flat_map_length_le {A B : Type} (f : A -> list B) (l : list A) :
  (forall x, (List.length (f x) <= 1)%nat) ->
  (List.length (flat_map f l) <= List.length l)%nat.
Proof.
  intros Hf. induction l as [|x r IH]; simpl; [lia|].
  rewrite length_app. specialize (Hf x). lia.
Qed.

(** X5: every record of the interface list has exactly the entries
    [index] and [interface], both strings without a line feed, and comes
    from one line of the stripped output; there are never more records
    than lines. *)
Theorem parse_interfaces_records (out : string) (r : dict)
    (Hr : In r (WiresharkTools.parse_interfaces out)) :
  (exists index description line,
     r = [("index", VStr index); ("interface", VStr description)]
     /\ In line (split LF (strip out))
     /\ WiresharkTools.parse_line line = [r]
     /\ contains LF index = false
     /\ contains LF description = false
     /\ contains SPACE index = false)
  /\ (List.length (WiresharkTools.parse_interfaces out) <=
        List.length (split LF (strip out)))%nat.
Proof.
  split.
  - unfold WiresharkTools.parse_interfaces in Hr.
    apply in_flat_map in Hr as (line & Hline & Hr).
    destruct (parse_line_inv line r Hr) as (p0 & description & Hparse & -> & Heq & Hc).
    pose proof (split_pieces_no_sep _ _ _ Hline) as Hlf.
    rewrite Heq, contains_append in Hlf.
    apply orb_false_iff in Hlf as [Hlf0 Hlf1].
    simpl in Hlf1.
    exists (rstrip_char DOT p0), description, line.
    repeat split; try assumption.
    + now apply rstrip_by_contains.
    + now apply rstrip_by_contains.
  - apply flat_map_length_le, parse_line_at_most_one.
Qed.

Lemma parse_interfaces_records_witness :
  (List.length (WiresharkTools.parse_interfaces Scenario.two_interfaces) <=
     List.length (split LF (strip Scenario.two_interfaces)))%nat.
Proof.
  exact (proj2 (parse_interfaces_records Scenario.two_interfaces
                  [("index", VStr "1"); ("interface", VStr "en0 (Wi-Fi)")]
                  (or_introl eq_refl))).
Defined.

(** ** The interface tool *)

Lemma wireshark_get_interfaces_eval (w : world) :
  Registry.wireshark_get_interfaces w =
    (match binaries w list_probe with
     | Exited rc out _ =>
         Return [("interfaces",
                  OList (map of_dict
                           (if rc =? 0 then WiresharkTools.parse_interfaces out else [])))]
     | NotStarted e =>
         if is_SubprocessError e then Return [("interfaces", OList [])] else Raise e
     end, logged w list_probe).
Proof.
  unfold Registry.wireshark_get_interfaces, bind.
  rewrite get_available_interfaces_eval.
  launch_cases w list_probe.
  - destruct (rc =? 0); reflexivity.
  - destruct (is_SubprocessError e); reflexivity.
Qed.

(** X6: the interface tool cannot tell a failed listing from an empty
    one.  When [tshark -D] exits with a non-zero status the tool returns
    [{interfaces: []}] whatever the process printed, the same mapping as
    for a listing that succeeds and prints nothing; a launch error that
    is not a [SubprocessError] is raised to the caller of the tool. *)
Theorem wireshark_get_interfaces_failed_listing (w : world) :
  (forall rc out err,
     binaries w list_probe = Exited rc out err -> rc <> 0 ->
     fst (Registry.wireshark_get_interfaces w) = Return [("interfaces", OList [])])
  /\ (forall err,
        binaries w list_probe = Exited 0 EmptyString err ->
        fst (Registry.wireshark_get_interfaces w) = Return [("interfaces", OList [])])
  /\ (forall out err,
        binaries w list_probe = Exited 0 out err ->
        fst (Registry.wireshark_get_interfaces w) =
          Return [("interfaces",
                   OList (map of_dict (WiresharkTools.parse_interfaces out)))])
  /\ (forall e,
        binaries w list_probe = NotStarted e ->
        fst (Registry.wireshark_get_interfaces w) =
          if is_SubprocessError e then Return [("interfaces", OList [])] else Raise e)
  /\ invoked (snd (Registry.wireshark_get_interfaces w)) =
       (invoked w ++ [list_probe])%list.
Proof.
  rewrite wireshark_get_interfaces_eval. simpl.
  split; [|split; [|split; [|split; [|reflexivity]]]].
  - intros rc out err H Hrc. rewrite H. apply Z.eqb_neq in Hrc. now rewrite Hrc.
  - intros err H. now rewrite H.
  - intros out err H. now rewrite H.
  - intros e H. rewrite H. destruct (is_SubprocessError e); reflexivity.
Qed.

Lemma wireshark_get_interfaces_failed_listing_witness :
  fst (Registry.wireshark_get_interfaces
         (Scenario.answering 1 Scenario.two_interfaces "tshark: no permission")) =
    Return [("interfaces", OList [])].
Proof.
  apply (proj1 (wireshark_get_interfaces_failed_listing
                  (Scenario.answering 1 Scenario.two_interfaces "tshark: no permission"))
           1 Scenario.two_interfaces "tshark: no permission");
    [reflexivity | discriminate].
Defined.

(** ** The health check tool *)

Lemma wireshark_health_check_eval (w : world) :
  Registry.wireshark_health_check w =
    match binaries w version_probe with
    | Exited rc _ _ =>
        if rc =? 0 then
          let w1 := logged w version_probe in
          (match binaries w list_probe with
           | Exited rc' out _ =>
               Return (health_report true
                         (List.length (if rc' =? 0
                                       then WiresharkTools.parse_interfaces out
                                       else []))
                         (now w))
           | NotStarted e =>
               if is_SubprocessError e
               then Return (health_report true 0 (now w))
               else Return (health_error e (now w))
           end, logged w1 list_probe)
        else (Return (health_report false 0 (now w)), logged w version_probe)
    | NotStarted e =>
        (if is_SubprocessError e || is_FileNotFoundError e
         then Return (health_report false 0 (now w))
         else Return (health_error e (now w)), logged w version_probe)
    end.
Proof.
  unfold Registry.wireshark_health_check, try_except, bind at 1.
  rewrite check_wireshark_installed_eval.
  launch_cases w version_probe.
  - destruct (rc =? 0).
    + unfold bind. rewrite get_available_interfaces_eval.
      change (binaries (logged w version_probe) list_probe)
        with (binaries w list_probe).
      launch_cases w list_probe.
      * destruct (rc0 =? 0); reflexivity.
      * destruct (is_SubprocessError e); reflexivity.
    + reflexivity.
  - destruct (is_SubprocessError e || is_FileNotFoundError e); reflexivity.
Qed.

(** X7: the health check tool never raises.  It always returns a mapping
    with a [status] that is ["ok"] or ["error"] and the clock reading as
    [timestamp]; the status is ["ok"] only if [tshark --version] exited
    with status 0, in which case the mapping says
    [wireshark_installed = True] and has no [error]; and a mapping with an
    [error] has neither [wireshark_installed] nor [interface_count]. *)
Theorem wireshark_health_check_never_raises (w : world) :
  exists d status,
    fst (Registry.wireshark_health_check w) = Return d
    /\ assoc "status" d = Some (OStr status)
    /\ (status = "ok" \/ status = "error")
    /\ assoc "timestamp" d = Some (OTime (now w))
    /\ (status = "ok" ->
        assoc "wireshark_installed" d = Some (OBool true)
        /\ assoc "error" d = None
        /\ exists out err, binaries w version_probe = Exited 0 out err)
    /\ (assoc "error" d <> None ->
        status = "error"
        /\ assoc "wireshark_installed" d = None
        /\ assoc "interface_count" d = None).
Proof.
  set (P := fun d : odict =>
    exists status,
      assoc "status" d = Some (OStr status)
      /\ (status = "ok" \/ status = "error")
      /\ assoc "timestamp" d = Some (OTime (now w))
      /\ (status = "ok" ->
          assoc "wireshark_installed" d = Some (OBool true)
          /\ assoc "error" d = None
          /\ exists out err, binaries w version_probe = Exited 0 out err)
      /\ (assoc "error" d <> None ->
          status = "error"
          /\ assoc "wireshark_installed" d = None
          /\ assoc "interface_count" d = None)).
  assert (Hgoal : exists d, fst (Registry.wireshark_health_check w) = Return d /\ P d).
  { assert (HA : (exists out err, binaries w version_probe = Exited 0 out err) ->
                 forall n, P (health_report true n (now w))).
    { intros Hv n. exists "ok". split; [reflexivity|]. split; [now left|].
      split; [reflexivity|]. split.
      - intros _. split; [reflexivity|]. split; [reflexivity | exact Hv].
      - intros Herr. now elim Herr. }
    assert (HB : P (health_report false 0 (now w))).
    { exists "error". split; [reflexivity|]. split; [now right|].
      split; [reflexivity|]. split; [discriminate|].
      intros Herr. now elim Herr. }
    assert (HC : forall e, P (health_error e (now w))).
    { intros e. exists "error". split; [reflexivity|]. split; [now right|].
      split; [reflexivity|]. split; [discriminate|].
      intros _. split; [reflexivity|]. split; reflexivity. }
    rewrite wireshark_health_check_eval.
    launch_cases w version_probe.
    - destruct (rc =? 0) eqn:Hrc.
      + apply Z.eqb_eq in Hrc. subst rc. cbv zeta.
        assert (Hv : exists out0 err0, Exited 0 out err = Exited 0 out0 err0) by eauto.
        launch_cases w list_probe; simpl fst.
        * eexists. split; [reflexivity | now apply HA].
        * destruct (is_SubprocessError e); eexists;
            (split; [reflexivity|]); [now apply HA | apply HC].
      + eexists. split; [reflexivity | exact HB].
    - simpl fst. destruct (is_SubprocessError e || is_FileNotFoundError e);
        eexists; (split; [reflexivity|]); [exact HB | apply HC]. }
  destruct Hgoal as (d & Hd & status & H).
  exists d, status. split; [exact Hd | exact H].
Qed.

(** X8: what the health check counts.  When [tshark --version] does not
    exit with status 0, or the binary is missing, the listing is not
    attempted: one process is launched and the report says not installed
    with zero interfaces.  When it does, the listing is launched next,
    and [interface_count] is the number of parsed interfaces if the
    listing exits with status 0 and zero, under status ["ok"], if it exits
    with another status; a launch error of the listing that is not a
    [SubprocessError] turns the report into an error report. *)
Theorem wireshark_health_check_counts (w : world) :
  (forall rc out err,
     binaries w version_probe = Exited rc out err -> rc <> 0 ->
     Registry.wireshark_health_check w =
       (Return (health_report false 0 (now w)), logged w version_probe))
  /\ (forall e,
        binaries w version_probe = NotStarted e -> is_FileNotFoundError e = true ->
        Registry.wireshark_health_check w =
          (Return (health_report false 0 (now w)), logged w version_probe))
  /\ (forall out err rc' out' err',
        binaries w version_probe = Exited 0 out err ->
        binaries w list_probe = Exited rc' out' err' ->
        Registry.wireshark_health_check w =
          (Return (health_report true
                     (if rc' =? 0
                      then List.length (WiresharkTools.parse_interfaces out')
                      else 0%nat)
                     (now w)),
           logged2 w version_probe list_probe))
  /\ (forall out err e,
        binaries w version_probe = Exited 0 out err ->
        binaries w list_probe = NotStarted e ->
        is_SubprocessError e = false ->
        Registry.wireshark_health_check w =
          (Return (health_error e (now w)), logged2 w version_probe list_probe)).
Proof.
  rewrite wireshark_health_check_eval.
  split; [|split; [|split]].
  - intros rc out err H Hrc. rewrite H. apply Z.eqb_neq in Hrc. now rewrite Hrc.
  - intros e H He. now rewrite H, He, orb_true_r.
  - intros out err rc' out' err' H H'. rewrite H. simpl. rewrite H'.
    destruct (rc' =? 0); reflexivity.
  - intros out err e H H' He. rewrite H. simpl. now rewrite H', He.
Qed.

Lemma wireshark_health_check_counts_witness :
  Registry.wireshark_health_check
    (Scenario.answering 0 Scenario.two_interfaces EmptyString) =
    (Return [("status", OStr "ok"); ("wireshark_installed", OBool true);
             ("interface_count", OInt 2); ("timestamp", OTime 1700000000)],
     mkWorld (binaries (Scenario.answering 0 Scenario.two_interfaces EmptyString))
       [["tshark"; "--version"]; ["tshark"; "-D"]] 1700000000)
  /\ Registry.wireshark_health_check Scenario.missing =
       (Return [("status", OStr "error"); ("wireshark_installed", OBool false);
                ("interface_count", OInt 0); ("timestamp", OTime 1700000000)],
        mkWorld (binaries Scenario.missing) [["tshark"; "--version"]] 1700000000).
Proof.
  split.
  - exact (proj1 (proj2 (proj2 (wireshark_health_check_counts
             (Scenario.answering 0 Scenario.two_interfaces EmptyString))))
             Scenario.two_interfaces EmptyString 0 Scenario.two_interfaces EmptyString
             eq_refl eq_refl).
  - exact (proj1 (proj2 (wireshark_health_check_counts Scenario.missing))
             Scenario.no_such_file eq_refl eq_refl).
Defined.

(** ** The prompt store *)

Lemma prompt_store_get_cases (prompt_id : string) :
  (In prompt_id prompt_ids
   /\ exists text,
        WiresharkPromptStore.get prompt_id =
          Some [("id", prompt_id); ("text", text)]
        /\ In [("id", prompt_id); ("text", text)] WiresharkPromptStore.list)
  \/ (~ In prompt_id prompt_ids /\ WiresharkPromptStore.get prompt_id = None).
Proof.
  unfold WiresharkPromptStore.get, WiresharkPromptStore._prompts, prompt_ids.
  cbn [assoc].
  destruct (String.eqb prompt_id "wireshark_filters") eqn:E1.
  { apply String.eqb_eq in E1. subst. left. split; [simpl; auto|].
    eexists. split; [reflexivity | simpl; auto]. }
  destruct (String.eqb prompt_id "wireshark_analysis") eqn:E2.
  { apply String.eqb_eq in E2. subst. left. split; [simpl; auto|].
    eexists. split; [reflexivity | simpl; auto]. }
  destruct (String.eqb prompt_id "wireshark_commands") eqn:E3.
  { apply String.eqb_eq in E3. subst. left. split; [simpl; auto|].
    eexists. split; [reflexivity | simpl; auto]. }
  right. split; [|reflexivity].
  apply String.eqb_neq in E1, E2, E3.
  simpl. intros [H|[H|[H|[]]]]; congruence.
Qed.

(** X9: the prompt store is consistent.  [get] finds a prompt exactly
    for the three stored identifiers; the prompt found carries the
    requested identifier in its [id] entry, next to its [text], and is
    one of those [list] returns; conversely every prompt of [list] is
    what [get] returns for its own [id]; [list] has three prompts. *)
Theorem prompt_store_round_trip (prompt_id : string) :
  (WiresharkPromptStore.get prompt_id <> None <-> In prompt_id prompt_ids)
  /\ (forall p,
        WiresharkPromptStore.get prompt_id = Some p ->
        assoc "id" p = Some prompt_id
        /\ (exists text, p = [("id", prompt_id); ("text", text)])
        /\ In p WiresharkPromptStore.list)
  /\ (forall p,
        In p WiresharkPromptStore.list ->
        exists id, assoc "id" p = Some id /\ WiresharkPromptStore.get id = Some p)
  /\ List.length WiresharkPromptStore.list = 3%nat
  /\ map (assoc "id") WiresharkPromptStore.list = map Some prompt_ids.
Proof.
  split; [|split; [|split; [|split; reflexivity]]].
  - destruct (prompt_store_get_cases prompt_id) as [(Hin & text & Hget & _) | (Hnot & Hget)];
      rewrite Hget.
    + split; [intros _; exact Hin | intros _; discriminate].
    + split; [intros H; now elim H | intros H; contradiction].
  - intros p Hp.
    destruct (prompt_store_get_cases prompt_id) as [(Hin & text & Hget & Hl) | (Hnot & Hget)];
      rewrite Hget in Hp; [|discriminate].
    injection Hp as <-. split; [|split; [eauto | exact Hl]].
    simpl. reflexivity.
  - intros p Hp. simpl in Hp.
    destruct Hp as [<-|[<-|[<-|[]]]]; eexists; split; reflexivity.
Qed.

(** X10: [wireshark_get_prompt] answers with exactly one of two
    mappings.  For a stored identifier it returns [success = True] and,
    under [prompt], the stored prompt with that [id], which is also one
    of the prompts [wireshark_get_prompts] lists; for any other
    identifier it returns [success = False] and an [error] that quotes
    the identifier, and no [prompt]. *)
Theorem wireshark_get_prompt_result (prompt_id : string) :
  (In prompt_id prompt_ids
   /\ exists text,
        WiresharkPromptStore.get prompt_id = Some [("id", prompt_id); ("text", text)]
        /\ Registry.wireshark_get_prompt prompt_id =
             [("success", OBool true);
              ("prompt", ODict [("id", OStr prompt_id); ("text", OStr text)])]
        /\ exists listed,
             Registry.wireshark_get_prompts = [("prompts", OList listed)]
             /\ In (ODict [("id", OStr prompt_id); ("text", OStr text)]) listed)
  \/ (~ In prompt_id prompt_ids
      /\ Registry.wireshark_get_prompt prompt_id =
           [("success", OBool false); ("error", OStr (prompt_not_found prompt_id))]).
Proof.
  destruct (prompt_store_get_cases prompt_id) as [(Hin & text & Hget & Hl) | (Hnot & Hget)].
  - left. split; [exact Hin|]. exists text. split; [exact Hget|].
    split.
    + unfold Registry.wireshark_get_prompt. rewrite Hget. reflexivity.
    + eexists. split; [reflexivity|].
      change (ODict [("id", OStr prompt_id); ("text", OStr text)])
        with (of_strs [("id", prompt_id); ("text", text)]).
      now apply in_map.
  - right. split; [exact Hnot|].
    unfold Registry.wireshark_get_prompt. rewrite Hget. reflexivity.
Qed.

(** ** Start-up *)

Lemma server_lifespan_eval (w : world) :
  Server.server_lifespan w =
    (match binaries w version_probe with
     | Exited rc _ _ =>
         if rc =? 0 then Server.Yields []
         else Server.Aborts "Wireshark未安装或tshark命令不可用"
     | NotStarted e =>
         if is_SubprocessError e || is_FileNotFoundError e
         then Server.Aborts "Wireshark未安装或tshark命令不可用"
         else Server.Escapes e
     end, logged w version_probe).
Proof.
  unfold Server.server_lifespan. rewrite check_wireshark_installed_eval.
  launch_cases w version_probe.
  - destruct (rc =? 0); reflexivity.
  - destruct (is_SubprocessError e || is_FileNotFoundError e); reflexivity.
Qed.

(** X11: the server starts only with a working [tshark].  Entering
    [server_lifespan] launches [tshark --version] once; it yields its
    empty context exactly when that process exits with status 0, raises
    the refusal [Exception] when the process exits with another status or
    the binary is missing, and otherwise lets the launch error through. *)
Theorem server_lifespan_requires_tshark (w : world) :
  (fst (Server.server_lifespan w) = Server.Yields [] <->
     exists out err, binaries w version_probe = Exited 0 out err)
  /\ (forall rc out err,
        binaries w version_probe = Exited rc out err -> rc <> 0 ->
        fst (Server.server_lifespan w) =
          Server.Aborts "Wireshark未安装或tshark命令不可用")
  /\ (forall e,
        binaries w version_probe = NotStarted e ->
        fst (Server.server_lifespan w) =
          if is_SubprocessError e || is_FileNotFoundError e
          then Server.Aborts "Wireshark未安装或tshark命令不可用"
          else Server.Escapes e)
  /\ invoked (snd (Server.server_lifespan w)) = (invoked w ++ [version_probe])%list.
Proof.
  rewrite server_lifespan_eval. simpl.
  split; [|split; [|split; [|reflexivity]]].
  - launch_cases w version_probe.
    + destruct (rc =? 0) eqn:Hrc.
      * apply Z.eqb_eq in Hrc. subst rc. split; eauto.
      * split; [discriminate|]. intros (out0 & err0 & H).
        injection H as -> _ _. discriminate Hrc.
    + split.
      * destruct (is_SubprocessError e || is_FileNotFoundError e); discriminate.
      * intros (out0 & err0 & H). discriminate H.
  - intros rc out err H Hrc. rewrite H. apply Z.eqb_neq in Hrc. now rewrite Hrc.
  - intros e H. now rewrite H.
Qed.

Lemma server_lifespan_requires_tshark_witness :
  fst (Server.server_lifespan Scenario.missing) =
    Server.Aborts "Wireshark未安装或tshark命令不可用".
Proof.
  exact (proj1 (proj2 (proj2 (server_lifespan_requires_tshark Scenario.missing)))
           Scenario.no_such_file eq_refl).
Defined.

Lemma health_eval (w : world) :
  Server.health w =
    (match binaries w version_probe with
     | Exited rc _ _ =>
         Return [("status", OStr (if rc =? 0 then "healthy" else "unhealthy"));
                 ("wireshark_installed", OBool (rc =? 0));
                 ("server_time", OTime (now w))]
     | NotStarted e =>
         if is_SubprocessError e || is_FileNotFoundError e
         then Return [("status", OStr "unhealthy");
                      ("wireshark_installed", OBool false);
                      ("server_time", OTime (now w))]
         else Raise e
     end, logged w version_probe).
Proof.
  unfold Server.health, bind. rewrite check_wireshark_installed_eval.
  launch_cases w version_probe.
  - reflexivity.
  - destruct (is_SubprocessError e || is_FileNotFoundError e); reflexivity.
Qed.

(** X12: the [/health] endpoint launches [tshark --version] once and
    answers with [status], [wireshark_installed] and the clock reading as
    [server_time].  It reports [healthy] and [True] exactly when the
    process exits with status 0, and [unhealthy] and [False] when it
    exits with another status or the binary is missing; it has no handler
    of its own, so a launch error other than these (a [PermissionError],
    say) is raised out of the endpoint. *)
Theorem health_endpoint_report (w : world) :
  (forall rc out err,
     binaries w version_probe = Exited rc out err ->
     Server.health w =
       (Return [("status", OStr (if rc =? 0 then "healthy" else "unhealthy"));
                ("wireshark_installed", OBool (rc =? 0));
                ("server_time", OTime (now w))],
        logged w version_probe))
  /\ (forall e,
        binaries w version_probe = NotStarted e ->
        is_SubprocessError e || is_FileNotFoundError e = true ->
        Server.health w =
          (Return [("status", OStr "unhealthy");
                   ("wireshark_installed", OBool false);
                   ("server_time", OTime (now w))],
           logged w version_probe))
  /\ (forall e,
        binaries w version_probe = NotStarted e ->
        is_SubprocessError e = false -> is_FileNotFoundError e = false ->
        Server.health w = (Raise e, logged w version_probe))
  /\ (forall d,
        fst (Server.health w) = Return d ->
        exists b : bool,
          d = [("status", OStr (if b then "healthy" else "unhealthy"));
               ("wireshark_installed", OBool b);
               ("server_time", OTime (now w))]
          /\ (b = true <-> exists out err, binaries w version_probe = Exited 0 out err)).
Proof.
  rewrite health_eval. split; [|split; [|split]].
  - intros rc out err H. now rewrite H.
  - intros e H He. now rewrite H, He.
  - intros e H Hs Hf. now rewrite H, Hs, Hf.
  - intros d. simpl fst. launch_cases w version_probe.
    + intros H. injection H as <-. exists (rc =? 0). split; [reflexivity|].
      split.
      * intros Hrc. apply Z.eqb_eq in Hrc. subst rc. eauto.
      * intros (out0 & err0 & H). now injection H as -> _ _.
    + destruct (is_SubprocessError e || is_FileNotFoundError e); [|discriminate].
      intros H. injection H as <-. exists false. split; [reflexivity|].
      split; [discriminate|]. intros (out0 & err0 & H). discriminate H.
Qed.

Lemma health_endpoint_report_witness :
  fst (Server.health Scenario.missing) =
    Return [("status", OStr "unhealthy"); ("wireshark_installed", OBool false);
            ("server_time", OTime 1700000000)]
  /\ fst (Server.health (mkWorld (fun _ => NotStarted Scenario.permission_denied) [] 0)) =
       Raise Scenario.permission_denied.
Proof.
  split.
  - exact (f_equal fst
             (proj1 (proj2 (health_endpoint_report Scenario.missing))
                Scenario.no_such_file eq_refl eq_refl)).
  - exact (f_equal fst
             (proj1 (proj2 (proj2 (health_endpoint_report
                (mkWorld (fun _ => NotStarted Scenario.permission_denied) [] 0))))
                Scenario.permission_denied eq_refl eq_refl eq_refl)).
Defined.

(** The logging loop of the script finds both entries in every parsed
    record, so it completes. *)
Lemma log_interfaces_completes (interfaces : list dict) (w : world) :
  (forall r, In r interfaces ->
     exists index description,
       r = [("index", VStr index); ("interface", VStr description)]) ->
  Server.log_interfaces interfaces w = (Return tt, w).
Proof.
  induction interfaces as [|r rest IH]; intros H; [reflexivity|].
  destruct (H r (or_introl eq_refl)) as (index & description & ->).
  simpl. unfold bind. simpl. apply IH. intros r' Hr'. apply H. now right.
Qed.

Lemma parse_interfaces_shape (out : string) (r : dict) :
  In r (WiresharkTools.parse_interfaces out) ->
  exists index description,
    r = [("index", VStr index); ("interface", VStr description)].
Proof.
  unfold WiresharkTools.parse_interfaces. intros Hr.
  apply in_flat_map in Hr as (line & _ & Hr).
  destruct (parse_line_inv line r Hr) as (p0 & description & _ & -> & _).
  eauto.
Qed.

Lemma main_eval (int_of_str : string -> outcome Z) (env : Server.environ) (w : world) :
  Server.main int_of_str env w =
    match port_setting int_of_str env with
    | Raise e => (Server.SysExit 1, w)
    | Return port =>
        match binaries w version_probe with
        | Exited rc _ _ =>
            if rc =? 0 then
              (match binaries w list_probe with
               | Exited _ _ _ => Server.Serves (listen_host env) port
               | NotStarted e =>
                   if is_SubprocessError e
                   then Server.Serves (listen_host env) port
                   else Server.SysExit 1
               end, logged2 w version_probe list_probe)
            else (Server.SysExit 1, logged w version_probe)
        | NotStarted e => (Server.SysExit 1, logged w version_probe)
        end
    end.
Proof.
  unfold Server.main, port_setting, listen_host, bind at 1.
  destruct (Server.MCP_PORT env) as [s|].
  - destruct (int_of_str s) as [port|e]; [|reflexivity].
    unfold bind at 1. rewrite check_wireshark_installed_eval.
    launch_cases w version_probe.
    + destruct (rc =? 0); [|reflexivity].
      unfold bind at 1. rewrite get_available_interfaces_eval.
      change (binaries (logged w version_probe) list_probe)
        with (binaries w list_probe).
      launch_cases w list_probe.
      * destruct (rc0 =? 0); unfold bind;
          (rewrite log_interfaces_completes;
           [reflexivity | first [apply parse_interfaces_shape | intros r []]]).
      * destruct (is_SubprocessError e); reflexivity.
    + destruct (is_SubprocessError e || is_FileNotFoundError e); reflexivity.
  - unfold ret at 1. unfold bind at 1. rewrite check_wireshark_installed_eval.
    launch_cases w version_probe.
    + destruct (rc =? 0); [|reflexivity].
      unfold bind at 1. rewrite get_available_interfaces_eval.
      change (binaries (logged w version_probe) list_probe)
        with (binaries w list_probe).
      launch_cases w list_probe.
      * destruct (rc0 =? 0); unfold bind;
          (rewrite log_interfaces_completes;
           [reflexivity | first [apply parse_interfaces_shape | intros r []]]).
      * destruct (is_SubprocessError e); reflexivity.
    + destruct (is_SubprocessError e || is_FileNotFoundError e); reflexivity.
Qed.

(** X13: the script never serves without [tshark], and when it does not
    serve it exits with status 1.  If it reaches [uvicorn.run] then
    [tshark --version] exited with status 0, the port is the configured
    one, the host is [MCP_HOST] or 127.0.0.1, and the version probe and
    the listing were launched, in that order.  Every other run ends by
    [sys.exit(1)]: in particular whenever the version probe does not exit
    with status 0, after that single launch, and, before any process is
    launched, when [int] rejects the port setting. *)
Theorem main_serves_only_with_tshark (int_of_str : string -> outcome Z)
    (env : Server.environ) (w : world) :
  (forall host port,
     fst (Server.main int_of_str env w) = Server.Serves host port ->
     port_setting int_of_str env = Return port
     /\ host = listen_host env
     /\ (exists out err, binaries w version_probe = Exited 0 out err)
     /\ invoked (snd (Server.main int_of_str env w)) =
          (invoked w ++ [version_probe; list_probe])%list)
  /\ ((exists host port, fst (Server.main int_of_str env w) = Server.Serves host port)
      \/ fst (Server.main int_of_str env w) = Server.SysExit 1)
  /\ (~ (exists out err, binaries w version_probe = Exited 0 out err) ->
      fst (Server.main int_of_str env w) = Server.SysExit 1
      /\ (forall port, port_setting int_of_str env = Return port ->
            invoked (snd (Server.main int_of_str env w)) =
              (invoked w ++ [version_probe])%list))
  /\ (forall e,
        port_setting int_of_str env = Raise e ->
        Server.main int_of_str env w = (Server.SysExit 1, w)).
Proof.
  rewrite main_eval.
  split; [|split; [|split]].
  - intros host port0.
    destruct (port_setting int_of_str env) as [port|e]; [|discriminate].
    launch_cases w version_probe; [|discriminate].
    destruct (rc =? 0) eqn:Hrc; [|discriminate].
    apply Z.eqb_eq in Hrc. subst rc.
    assert (Hinv : invoked (logged2 w version_probe list_probe) =
                     (invoked w ++ [version_probe; list_probe])%list).
    { simpl. now rewrite <- app_assoc. }
    launch_cases w list_probe; simpl fst; simpl snd.
    + intros H. injection H as <- <-. repeat split; eauto.
    + destruct (is_SubprocessError e); [|discriminate].
      intros H. injection H as <- <-. repeat split; eauto.
  - destruct (port_setting int_of_str env) as [port|e]; [|now right].
    launch_cases w version_probe; [|now right].
    destruct (rc =? 0); [|now right].
    launch_cases w list_probe; simpl fst; [left; eauto|].
    destruct (is_SubprocessError e); [left; eauto | now right].
  - intros Hno.
    destruct (port_setting int_of_str env) as [port|e].
    + launch_cases w version_probe.
      * destruct (rc =? 0) eqn:Hrc.
        -- apply Z.eqb_eq in Hrc. subst rc. exfalso. apply Hno. eauto.
        -- split; [reflexivity|]. intros port0 _. reflexivity.
      * split; [reflexivity|]. intros port0 _. reflexivity.
    + split; [reflexivity|]. intros port0 H. discriminate H.
  - intros e He. now rewrite He.
Qed.

(** X14: how the script ends, for a port that [int] accepts (3001 when
    [MCP_PORT] is unset).  If [tshark --version] exits with status 0 and
    the listing runs, whatever its exit status, the script reaches
    [uvicorn.run] on the configured host and port; if the listing cannot
    be launched, it still serves when the error is a [SubprocessError]
    and exits with status 1, through the handler, otherwise.  If the
    version probe exits with another status, or cannot be launched for
    whatever reason, the script ends by [sys.exit(1)] after that one
    launch. *)
Theorem main_endings (int_of_str : string -> outcome Z)
    (env : Server.environ) (w : world) (port : Z)
    (Hport : port_setting int_of_str env = Return port) :
  (forall out err rc' out' err',
     binaries w version_probe = Exited 0 out err ->
     binaries w list_probe = Exited rc' out' err' ->
     Server.main int_of_str env w =
       (Server.Serves (listen_host env) port, logged2 w version_probe list_probe))
  /\ (forall out err e,
        binaries w version_probe = Exited 0 out err ->
        binaries w list_probe = NotStarted e ->
        Server.main int_of_str env w =
          (if is_SubprocessError e
           then Server.Serves (listen_host env) port else Server.SysExit 1,
           logged2 w version_probe list_probe))
  /\ (forall rc out err,
        binaries w version_probe = Exited rc out err -> rc <> 0 ->
        Server.main int_of_str env w = (Server.SysExit 1, logged w version_probe))
  /\ (forall e,
        binaries w version_probe = NotStarted e ->
        Server.main int_of_str env w = (Server.SysExit 1, logged w version_probe))
  /\ (Server.MCP_PORT env = None -> port = 3001)
  /\ (Server.MCP_HOST env = None -> listen_host env = "127.0.0.1").
Proof.
  rewrite main_eval, Hport.
  split; [|split; [|split; [|split; [|split]]]].
  - intros out err rc' out' err' H H'. now rewrite H, H'.
  - intros out err e H H'. rewrite H, H'. simpl.
    destruct (is_SubprocessError e); reflexivity.
  - intros rc out err H Hrc. rewrite H. apply Z.eqb_neq in Hrc. now rewrite Hrc.
  - intros e H. now rewrite H.
  - intros Hnone. unfold port_setting in Hport. rewrite Hnone in Hport.
    now injection Hport.
  - intros Hnone. unfold listen_host. now rewrite Hnone.
Qed.

Lemma main_endings_witness :
  Server.main (fun _ => Raise (mkExc ValueError "invalid literal for int()"))
    (Server.mkEnviron None None)
    (Scenario.answering 0 Scenario.two_interfaces EmptyString) =
    (Server.Serves "127.0.0.1" 3001,
     mkWorld (binaries (Scenario.answering 0 Scenario.two_interfaces EmptyString))
       [["tshark"; "--version"]; ["tshark"; "-D"]] 1700000000)
  /\ Server.main (fun _ => Raise (mkExc ValueError "invalid literal for int()"))
       (Server.mkEnviron None None)
       (mkWorld (fun _ => NotStarted Scenario.permission_denied) [] 0) =
       (Server.SysExit 1,
        mkWorld (fun _ => NotStarted Scenario.permission_denied)
          [["tshark"; "--version"]] 0).
Proof.
  split.
  - exact (proj1 (main_endings
                    (fun _ => Raise (mkExc ValueError "invalid literal for int()"))
                    (Server.mkEnviron None None)
                    (Scenario.answering 0 Scenario.two_interfaces EmptyString)
                    3001 eq_refl)
             Scenario.two_interfaces EmptyString 0 Scenario.two_interfaces EmptyString
             eq_refl eq_refl).
  - exact (proj1 (proj2 (proj2 (proj2 (main_endings
                    (fun _ => Raise (mkExc ValueError "invalid literal for int()"))
                    (Server.mkEnviron None None)
                    (mkWorld (fun _ => NotStarted Scenario.permission_denied) [] 0)
                    3001 eq_refl))))
             Scenario.permission_denied eq_refl).
Defined.

(** ** The installation tool and the other reports *)

Lemma wireshark_check_installation_eval (w : world) :
  Tools.wireshark_check_installation w =
    (match binaries w version_probe with
     | Exited rc _ _ => Return [("installed", VBool (rc =? 0))]
     | NotStarted e =>
         if is_SubprocessError e || is_FileNotFoundError e
         then Return [("installed", VBool false)] else Raise e
     end, logged w version_probe).
Proof.
  unfold Tools.wireshark_check_installation, bind.
  rewrite check_wireshark_installed_eval.
  launch_cases w version_probe.
  - reflexivity.
  - destruct (is_SubprocessError e || is_FileNotFoundError e); reflexivity.
Qed.

(** X15: the reports of the installation agree.  In a given world, the
    [wireshark_installed] flag of the health check tool and of the
    [/health] endpoint, whenever present, is the [installed] flag that
    [wireshark_check_installation] returns, and [server_lifespan] yields
    exactly when that flag is [True], which is exactly when
    [tshark --version] exits with status 0. *)
Theorem installation_reports_agree (w : world) (b : bool) :
  (forall d,
     fst (Registry.wireshark_health_check w) = Return d ->
     assoc "wireshark_installed" d = Some (OBool b) ->
     fst (Tools.wireshark_check_installation w) = Return [("installed", VBool b)])
  /\ (forall d,
        fst (Server.health w) = Return d ->
        assoc "wireshark_installed" d = Some (OBool b) ->
        fst (Tools.wireshark_check_installation w) = Return [("installed", VBool b)])
  /\ (fst (Tools.wireshark_check_installation w) = Return [("installed", VBool true)] <->
        fst (Server.server_lifespan w) = Server.Yields [])
  /\ (fst (Tools.wireshark_check_installation w) = Return [("installed", VBool true)] <->
        exists out err, binaries w version_probe = Exited 0 out err).
Proof.
  rewrite wireshark_health_check_eval, health_eval, server_lifespan_eval,
    wireshark_check_installation_eval.
  launch_cases w version_probe; simpl fst.
  - destruct (rc =? 0) eqn:Hrc.
    + split; [|split; [|split]].
      * intros d Hd Hb. cbv zeta in Hd.
        destruct (binaries w list_probe) as [rc0 out0 err0 | e]; simpl in Hd.
        -- injection Hd as <-. simpl in Hb. now injection Hb as <-.
        -- destruct (is_SubprocessError e); injection Hd as <-; simpl in Hb;
             [now injection Hb as <- | discriminate Hb].
      * intros d Hd Hb. injection Hd as <-. simpl in Hb. now injection Hb as <-.
      * split; reflexivity.
      * apply Z.eqb_eq in Hrc. subst rc. split; eauto.
    + split; [|split; [|split]].
      * intros d Hd Hb. injection Hd as <-. simpl in Hb. now injection Hb as <-.
      * intros d Hd Hb. injection Hd as <-. simpl in Hb. now injection Hb as <-.
      * split; discriminate.
      * split; [discriminate|]. intros (out0 & err0 & H).
        injection H as -> _ _. discriminate Hrc.
  - destruct (is_SubprocessError e || is_FileNotFoundError e).
    + split; [|split; [|split]].
      * intros d Hd Hb. injection Hd as <-. simpl in Hb. now injection Hb as <-.
      * intros d Hd Hb. injection Hd as <-. simpl in Hb. now injection Hb as <-.
      * split; discriminate.
      * split; [discriminate|]. intros (out0 & err0 & H). discriminate H.
    + split; [|split; [|split]].
      * intros d Hd Hb. injection Hd as <-. discriminate Hb.
      * intros d Hd. discriminate Hd.
      * split; discriminate.
      * split; [discriminate|]. intros (out0 & err0 & H). discriminate H.
Qed.

Lemma installation_reports_agree_witness :
  fst (Tools.wireshark_check_installation
         (Scenario.answering 0 "TShark 4.2.0" EmptyString)) =
    Return [("installed", VBool true)].
Proof.
  apply (proj2 (proj2 (proj2 (installation_reports_agree
                  (Scenario.answering 0 "TShark 4.2.0" EmptyString) true)))).
  exists "TShark 4.2.0", EmptyString. reflexivity.
Defined.

(** ** Default capture names *)

Lemma string_length_append (a b : string) :
  String.length (a ++ b) = (String.length a + String.length b)%nat.
Proof.
  induction a as [|c r IH]; simpl; [reflexivity | now rewrite IH].
Qed.

Lemma string_app_inv_tail (a b s : string) : a ++ s = b ++ s -> a = b.
Proof.
  revert b. induction a as [|c r IH]; intros [|c' r'] H.
  - reflexivity.
  - apply (f_equal String.length) in H. simpl in H.
    rewrite string_length_append in H. lia.
  - apply (f_equal String.length) in H. simpl in H.
    rewrite string_length_append in H. lia.
  - simpl in H. injection H as -> H. f_equal. now apply IH.
Qed.

Lemma string_app_inv_head (s a b : string) : s ++ a = s ++ b -> a = b.
Proof.
  induction s as [|c r IH]; simpl; intros H; [exact H|].
  injection H as H. now apply IH.
Qed.

Lemma str_of_int_injective (m n : Z) : str_of_int m = str_of_int n -> m = n.
Proof.
  intros H. pose proof (str_of_int_decimal m) as Hm.
  rewrite H, str_of_int_decimal in Hm. now injection Hm.
Qed.

(** X16: the default capture name identifies the second of the request
    and nothing else.  Two captures requested without an output path
    get the same file name exactly when the clock shows the same second:
    in that case both ask [tshark] to write the same file. *)
Theorem default_capture_name_per_second (t1 t2 : Z) :
  (Tools.default_capture_name t1 = Tools.default_capture_name t2 <-> t1 = t2)
  /\ (forall interface duration filter_str w1 w2,
        now w1 = t1 -> now w2 = t2 ->
        (WiresharkTools.capture_cmd interface duration filter_str
           (effective_output None w1) =
         WiresharkTools.capture_cmd interface duration filter_str
           (effective_output None w2) <-> t1 = t2)).
Proof.
  assert (Hname : Tools.default_capture_name t1 = Tools.default_capture_name t2 <->
                  t1 = t2).
  { split; [|now intros ->].
    unfold Tools.default_capture_name. intros H.
    apply string_app_inv_head, string_app_inv_tail in H.
    now apply str_of_int_injective. }
  split; [exact Hname|].
  intros interface duration filter_str w1 w2 H1 H2.
  unfold effective_output. simpl truthy_str. cbv iota. rewrite H1, H2.
  split.
  - unfold WiresharkTools.capture_cmd. intros H.
    apply app_inv_head in H. apply app_inv_head in H.
    rewrite !extend_if_str_given in H by apply default_capture_name_nonempty.
    apply Hname. exact (f_equal (fun l => nth 1 l EmptyString) H).
  - now intros ->.
Qed.
